(** * Product catalog resolvers (index.js): a shallow embedding

    The GraphQL resolvers of [index.js] are embedded as functions over an
    explicit world (the two Mongoose collections and the generators the
    process draws from).  The libraries the resolvers call are modelled as
    follows:
    - Mongoose collections are lists of documents in insertion order;
    - [bcryptjs], the JWS encoding of [jsonwebtoken], the ordering used by
      the store for [sort] and Mongoose's cast of a GraphQL ID to an
      [ObjectId] are operations of the class [Externals];
    - a JavaScript [Number] coming from [GraphQLFloat] (always finite) is its
      rational value in [Q]; a [GraphQLInt] is a [Z]. *)

From Stdlib Require Import List String Ascii ZArith NArith QArith Bool Lia.
From Stdlib Require Import Permutation.
Import ListNotations.
Local Close Scope Q_scope.
Local Open Scope string_scope.
Local Open Scope list_scope.

(** ** JavaScript values as the resolvers test them *)

Module JS.

(** An optional GraphQL argument is [None] when it is [undefined] or
    [null]; both are falsy.  [truthy_*] is the test of [if (x)]. *)
Definition truthy_string (x : option string) : bool :=
  match x with
  | Some s => negb (s =? "")
  | None => false
  end.

Definition truthy_number (x : option Q) : bool :=
  match x with
  | Some q => negb (Qeq_bool q 0)
  | None => false
  end.

Definition truthy_int (x : option Z) : bool :=
  match x with
  | Some z => negb (z =? 0)%Z
  | None => false
  end.

Definition truthy_bool (x : option bool) : bool :=
  match x with
  | Some b => b
  | None => false
  end.

(** [x || dflt] on an optional string. *)
Definition or_string (x : option string) (dflt : string) : string :=
  match x with
  | Some s => if s =? "" then dflt else s
  | None => dflt
  end.

(** [x || dflt] on an optional boolean. *)
Definition or_bool (x : option bool) (dflt : bool) : bool :=
  match x with
  | Some true => true
  | _ => dflt
  end.

(** [s.split(sep)] for a one-character separator. *)
Fixpoint split (sep : ascii) (s : string) : list string :=
  match s with
  | EmptyString => [EmptyString]
  | String c s' =>
      if Ascii.eqb c sep then EmptyString :: split sep s'
      else match split sep s' with
           | w :: ws => String c w :: ws
           | [] => [String c EmptyString]
           end
  end.

(** [a[i]]: [undefined] out of range. *)
Definition index {A} (a : list A) (i : nat) : option A := nth_error a i.

End JS.

(** ** Results of a resolver *)

(** What a resolver can throw: [new Error(message)] in the resolvers
    themselves, an error of [jsonwebtoken], a rejection by the store, or
    Mongoose's failure to cast a value to the type of its path. *)
Inductive Exn : Type :=
| Error (message : string)
| JsonWebTokenError (message : string)
| TokenExpiredError
| MongoServerError
| CastError.

Inductive Result (A : Type) : Type :=
| Ok (a : A)
| Throw (e : Exn).
Arguments Ok {A} a.
Arguments Throw {A} e.

(** The error taxonomy, as the messages the resolvers throw. *)
Definition Unauthorized : Exn := Error "Unauthorized".
Definition Conflict : Exn := Error "Username already exists".
Definition UserNotFound : Exn := Error "User not found".
Definition InvalidCredentials : Exn := Error "Invalid credentials".
Definition ProductNotFound : Exn := Error "Product not found".

(** ** Mongoose models *)

Definition ObjectId := N.

(** [mongoose.model("Product", ...)]: every path of the schema is optional
    in a stored document ([None] is a missing or null path). *)
Module Product.

Record t : Type := mk {
  _id : ObjectId;
  name : option string;
  description : option string;
  price : option Q;
  category : option string;
  brand : option string;
  rating : option Q
}.

(** The condition on [price] of a filter: [{ $gte?, $lte? }]. *)
Record PriceCond : Type := { gte : option Q; lte : option Q }.

(** The [filter] object handed to [Product.find]; a path that was not
    assigned is [None]. *)
Record Filter : Type := {
  f_category : option string;
  f_brand : option string;
  f_price : option PriceCond
}.

Definition empty_filter : Filter :=
  {| f_category := None; f_brand := None; f_price := None |}.

(** A [mongoose.Query]: the filter and the options set on it so far. *)
Record Query : Type := {
  q_filter : Filter;
  q_sort : option string;
  q_skip : option Z;
  q_limit : option Z
}.

Definition find (filter : Filter) : Query :=
  {| q_filter := filter; q_sort := None; q_skip := None; q_limit := None |}.

(** [query.sort(arg)], [query.skip(arg)], [query.limit(arg)]: the argument
    is recorded as it is given. *)
Definition sort (q : Query) (arg : option string) : Query :=
  {| q_filter := q_filter q; q_sort := arg;
     q_skip := q_skip q; q_limit := q_limit q |}.

Definition skip (q : Query) (arg : option Z) : Query :=
  {| q_filter := q_filter q; q_sort := q_sort q;
     q_skip := arg; q_limit := q_limit q |}.

Definition limit (q : Query) (arg : option Z) : Query :=
  {| q_filter := q_filter q; q_sort := q_sort q;
     q_skip := q_skip q; q_limit := arg |}.

(** [filter.category = v], [filter.brand = v], [filter.price = c]. *)
Definition set_category (v : option string) (f : Filter) : Filter :=
  {| f_category := v; f_brand := f_brand f; f_price := f_price f |}.

Definition set_brand (v : option string) (f : Filter) : Filter :=
  {| f_category := f_category f; f_brand := v; f_price := f_price f |}.

Definition set_price (c : PriceCond) (f : Filter) : Filter :=
  {| f_category := f_category f; f_brand := f_brand f; f_price := Some c |}.

End Product.

(** [mongoose.model("User", ...)]; [username] carries a unique index. *)
Module User.

Record t : Type := mk {
  _id : ObjectId;
  username : string;
  password : string;
  isAdmin : bool
}.

(** [User.findOne({ username })]: the first document with that username. *)
Definition findOne (name : string) (coll : list t) : option t :=
  List.find (fun u => username u =? name) coll.

(** [User.findById(id)]. *)
Definition findById (id : ObjectId) (coll : list t) : option t :=
  List.find (fun u => (_id u =? id)%N) coll.

End User.

(** ** Tokens *)

(** The payload of a token: [{ id, isAdmin }] as [login] signs it, with the
    [iat] and [exp] claims [jsonwebtoken] adds (seconds since the epoch). *)
Record Payload : Type := {
  id : ObjectId;
  isAdmin : bool;
  iat : Z;
  exp : Z
}.

(** Outcome of decoding a compact JWS under a key. *)
Inductive JwsResult : Type :=
| Decoded (p : Payload)
| Malformed
| BadSignature.

(** ** The libraries and the store's ordering *)

Class Externals : Type := {
  (** [bcrypt.hash(data, rounds)], with the salt drawn from the given
      entropy. *)
  bcrypt_hash : string -> nat -> N -> string;
  (** [bcrypt.compare(data, hash)]. *)
  bcrypt_compare : string -> string -> bool;
  (** Signing and verifying the compact serialisation of a payload. *)
  jws_encode : Payload -> string -> string;
  jws_decode : string -> string -> JwsResult;
  (** [process.env.JWT_SECRET]. *)
  JWT_SECRET : string;
  (** The order in which the store returns documents for a sort
      specification. *)
  store_sort : string -> list Product.t -> list Product.t;
  (** Mongoose's cast of a GraphQL ID, as the resolvers receive it, to an
      [ObjectId]; [None] when the cast throws. *)
  cast_ObjectId : string -> option ObjectId
}.

(** What the libraries guarantee, stated where a theorem needs it. *)
Definition bcrypt_correct {ext : Externals} : Prop :=
  forall data rounds salt,
    bcrypt_compare data (bcrypt_hash data rounds salt) = true.

Definition jws_correct {ext : Externals} : Prop :=
  forall p key, jws_decode (jws_encode p key) key = Decoded p.

Definition sort_permutes {ext : Externals} : Prop :=
  forall spec docs, Permutation docs (store_sort spec docs).

(** ** The store: what [exec] and the [findById...] operations return *)

Module Store.

(** [{ path: value }]: the stored path equals the value. *)
Definition eq_cond (cond : option string) (v : option string) : bool :=
  match cond with
  | None => true
  | Some c => match v with
              | Some x => x =? c
              | None => false
              end
  end.

(** [{ price: { $gte: a, $lte: b } }]: the stored price is a number within
    the bounds that are present.  A condition object without operators
    denotes equality with the empty document, which no number satisfies. *)
Definition price_cond (cond : option Product.PriceCond) (v : option Q) : bool :=
  match cond with
  | None => true
  | Some c =>
      match Product.gte c, Product.lte c, v with
      | None, None, _ => false
      | _, _, None => false
      | lo, hi, Some x =>
          match lo with Some a => Qle_bool a x | None => true end
          && match hi with Some b => Qle_bool x b | None => true end
      end
  end.

Definition matches (f : Product.Filter) (p : Product.t) : bool :=
  eq_cond (Product.f_category f) (Product.category p)
  && eq_cond (Product.f_brand f) (Product.brand p)
  && price_cond (Product.f_price f) (Product.price p).

(** [limit(n)]: zero is no limit; the driver sends a negative limit as its
    absolute value. *)
Definition apply_limit (n : option Z) (docs : list Product.t) : list Product.t :=
  match n with
  | None => docs
  | Some z => if (z =? 0)%Z then docs else firstn (Z.abs_nat z) docs
  end.

(** [query.exec()]: filter, order, skip, limit.  The server rejects a
    negative skip. *)
Definition exec {ext : Externals} (q : Product.Query) (coll : list Product.t)
  : Result (list Product.t) :=
  let found := List.filter (matches (Product.q_filter q)) coll in
  let ordered := match Product.q_sort q with
                 | Some spec => store_sort spec found
                 | None => found
                 end in
  match Product.q_skip q with
  | None => Ok (apply_limit (Product.q_limit q) ordered)
  | Some n =>
      if (n <? 0)%Z then Throw MongoServerError
      else Ok (apply_limit (Product.q_limit q) (skipn (Z.to_nat n) ordered))
  end.

Definition has_id (id : ObjectId) (p : Product.t) : bool :=
  (Product._id p =? id)%N.

Definition findById (id : ObjectId) (coll : list Product.t) : option Product.t :=
  List.find (has_id id) coll.

(** Replaces the first document for which [test] holds. *)
Fixpoint replace_first (test : Product.t -> bool) (f : Product.t -> Product.t)
  (coll : list Product.t) : list Product.t :=
  match coll with
  | [] => []
  | p :: rest => if test p then f p :: rest
                 else p :: replace_first test f rest
  end.

(** Removes the first document for which [test] holds. *)
Fixpoint remove_first (test : Product.t -> bool) (coll : list Product.t)
  : list Product.t :=
  match coll with
  | [] => []
  | p :: rest => if test p then rest else p :: remove_first test rest
  end.

End Store.

(** ** The world and the resolver monad *)

Record World : Type := {
  Products : list Product.t;
  Users : list User.t;
  (** generator of [ObjectId]s for [new Model(...)] *)
  nextOid : N;
  (** source of the salts of [bcrypt.hash] *)
  entropy : N
}.

(** A resolver reads and updates the world and returns or throws. *)
Definition M (A : Type) : Type := World -> Result A * World.

Definition ret {A} (a : A) : M A := fun w => (Ok a, w).
Definition throw {A} (e : Exn) : M A := fun w => (Throw e, w).
Definition bind {A B} (m : M A) (k : A -> M B) : M B :=
  fun w => match m w with
           | (Ok a, w') => k a w'
           | (Throw e, w') => (Throw e, w')
           end.
Definition gets {A} (f : World -> A) : M A := fun w => (Ok (f w), w).
Definition modify (f : World -> World) : M unit := fun w => (Ok tt, f w).

Declare Scope resolver_scope.
Delimit Scope resolver_scope with resolver.
Notation "'let*' x ':=' m 'in' k" := (bind m (fun x => k))
  (at level 10, x name, m at level 100, k at level 200) : resolver_scope.
Notation "m ';;' k" := (bind m (fun _ => k))
  (at level 100, k at level 200, right associativity) : resolver_scope.
Local Open Scope resolver_scope.

(** ** Arguments of the operations *)

Module ProductsArgs.
Record t : Type := {
  category : option string;
  brand : option string;
  minPrice : option Q;
  maxPrice : option Q;
  sortBy : option string;
  limit : option Z;
  skip : option Z
}.

(** [products] without arguments, and one argument added to others. *)
Definition none : t :=
  {| category := None; brand := None; minPrice := None; maxPrice := None;
     sortBy := None; limit := None; skip := None |}.

Definition with_category (v : option string) (a : t) : t :=
  {| category := v; brand := brand a; minPrice := minPrice a;
     maxPrice := maxPrice a; sortBy := sortBy a; limit := limit a;
     skip := skip a |}.

Definition with_brand (v : option string) (a : t) : t :=
  {| category := category a; brand := v; minPrice := minPrice a;
     maxPrice := maxPrice a; sortBy := sortBy a; limit := limit a;
     skip := skip a |}.

Definition with_minPrice (v : option Q) (a : t) : t :=
  {| category := category a; brand := brand a; minPrice := v;
     maxPrice := maxPrice a; sortBy := sortBy a; limit := limit a;
     skip := skip a |}.

Definition with_maxPrice (v : option Q) (a : t) : t :=
  {| category := category a; brand := brand a; minPrice := minPrice a;
     maxPrice := v; sortBy := sortBy a; limit := limit a; skip := skip a |}.

Definition with_limit (v : option Z) (a : t) : t :=
  {| category := category a; brand := brand a; minPrice := minPrice a;
     maxPrice := maxPrice a; sortBy := sortBy a; limit := v; skip := skip a |}.

Definition with_skip (v : option Z) (a : t) : t :=
  {| category := category a; brand := brand a; minPrice := minPrice a;
     maxPrice := maxPrice a; sortBy := sortBy a; limit := limit a; skip := v |}.

End ProductsArgs.

Module AddProductArgs.
Record t : Type := {
  name : string;
  description : option string;
  price : Q;
  category : option string;
  brand : option string;
  rating : option Q
}.
End AddProductArgs.

(** For [updateProduct] a key of [args] is absent ([None]), or present with
    a value or [null] ([Some v]); [id] is the GraphQL ID as received. *)
Module UpdateProductArgs.
Record t : Type := {
  id : string;
  name : option (option string);
  description : option (option string);
  price : option (option Q);
  category : option (option string);
  brand : option (option string);
  rating : option (option Q)
}.
End UpdateProductArgs.

(** The GraphQL context [{ user }] and the part of the request it is built
    from. *)
Record Context : Type := { user : option Payload }.

Record Request : Type := { authorization : option string }.

(** [new Product(args)] with a fresh [_id]. *)
Definition new_Product (oid : ObjectId) (args : AddProductArgs.t) : Product.t :=
  {| Product._id := oid;
     Product.name := Some (AddProductArgs.name args);
     Product.description := AddProductArgs.description args;
     Product.price := Some (AddProductArgs.price args);
     Product.category := AddProductArgs.category args;
     Product.brand := AddProductArgs.brand args;
     Product.rating := AddProductArgs.rating args |}.

(** The update document [args] applied to a stored product: the keys that
    are present are set, the others are kept. *)
Definition set_path {A} (upd : option (option A)) (old : option A) : option A :=
  match upd with
  | Some v => v
  | None => old
  end.

Definition apply_update (args : UpdateProductArgs.t) (p : Product.t) : Product.t :=
  {| Product._id := Product._id p;
     Product.name := set_path (UpdateProductArgs.name args) (Product.name p);
     Product.description :=
       set_path (UpdateProductArgs.description args) (Product.description p);
     Product.price := set_path (UpdateProductArgs.price args) (Product.price p);
     Product.category :=
       set_path (UpdateProductArgs.category args) (Product.category p);
     Product.brand := set_path (UpdateProductArgs.brand args) (Product.brand p);
     Product.rating := set_path (UpdateProductArgs.rating args) (Product.rating p) |}.

(** ** Operations on the world *)

Definition with_Products (ps : list Product.t) (w : World) : World :=
  {| Products := ps; Users := Users w;
     nextOid := nextOid w; entropy := entropy w |}.

Definition with_Users (us : list User.t) (w : World) : World :=
  {| Products := Products w; Users := us;
     nextOid := nextOid w; entropy := entropy w |}.

(** The [_id] a new document receives. *)
Definition new_ObjectId : M ObjectId :=
  fun w => (Ok (nextOid w),
            {| Products := Products w; Users := Users w;
               nextOid := N.succ (nextOid w); entropy := entropy w |}).

(** The salt [bcrypt.hash] draws. *)
Definition draw_salt : M N :=
  fun w => (Ok (entropy w),
            {| Products := Products w; Users := Users w;
               nextOid := nextOid w; entropy := N.succ (entropy w) |}).

(** [product.save()] of a new document. *)
Definition Product_save (p : Product.t) : M Product.t :=
  modify (fun w => with_Products (Products w ++ [p]) w) ;; ret p.

(** [user.save()] of a new document; the unique index on [username] rejects
    a duplicate. *)
Definition User_save (u : User.t) : M User.t :=
  let* taken := gets (fun w => User.findOne (User.username u) (Users w)) in
  match taken with
  | Some _ => throw MongoServerError
  | None => modify (fun w => with_Users (Users w ++ [u]) w) ;; ret u
  end.

(** [Product.findByIdAndUpdate(id, update, { new: true })]: the id is cast
    to an [ObjectId] first, which throws when it does not cast; then the
    updated document, or [null] when no document has this id. *)
Definition Product_findByIdAndUpdate {ext : Externals} (id : string)
  (update : UpdateProductArgs.t) : M (option Product.t) :=
  match cast_ObjectId id with
  | None => throw CastError
  | Some oid =>
      let* found := gets (fun w => Store.findById oid (Products w)) in
      match found with
      | None => ret None
      | Some p =>
          modify (fun w =>
            with_Products
              (Store.replace_first (Store.has_id oid) (apply_update update)
                 (Products w))
              w) ;;
          ret (Some (apply_update update p))
      end
  end.

(** [Product.findByIdAndDelete(id)]: the id is cast first, as above; then
    the deleted document, or [null]. *)
Definition Product_findByIdAndDelete {ext : Externals} (id : string)
  : M (option Product.t) :=
  match cast_ObjectId id with
  | None => throw CastError
  | Some oid =>
      let* found := gets (fun w => Store.findById oid (Products w)) in
      match found with
      | None => ret None
      | Some p =>
          modify (fun w =>
            with_Products
              (Store.remove_first (Store.has_id oid) (Products w)) w) ;;
          ret (Some p)
      end
  end.

Section Resolvers.

Context {ext : Externals}.

(** ** jsonwebtoken *)

(** [jwt.sign({ id, isAdmin }, secret, { expiresIn })] at time [now]
    (milliseconds, [Date.now()]); [expiresIn] in seconds. *)
Definition jwt_sign (uid : ObjectId) (admin : bool) (secret : string)
  (expiresIn : Z) (now : Z) : string :=
  let timestamp := (now / 1000)%Z in
  jws_encode {| id := uid; isAdmin := admin;
                iat := timestamp; exp := (timestamp + expiresIn)%Z |} secret.

(** [jwt.verify(token, secret)] at time [now]. *)
Definition jwt_verify (token secret : string) (now : Z) : Result Payload :=
  match jws_decode token secret with
  | Malformed => Throw (JsonWebTokenError "jwt malformed")
  | BadSignature => Throw (JsonWebTokenError "invalid signature")
  | Decoded p =>
      if (exp p <=? now / 1000)%Z then Throw TokenExpiredError else Ok p
  end.

(** One day, the ["1d"] of [login]. *)
Definition one_day : Z := 86400%Z.

(** ** The context of a request (index.js, 206-218) *)

(** The context, and the lines written to the console while building it. *)
Definition context (req : Request) (now : Z) : Context * list string :=
  let authHeader := JS.or_string (authorization req) "" in
  let token := JS.index (JS.split " " authHeader) 1 in
  if JS.truthy_string token then
    match token with
    | Some tok =>
        match jwt_verify tok JWT_SECRET now with
        | Ok p => ({| user := Some p |}, [])
        | Throw _ => ({| user := None |}, [" Invalid token"])
        end
    | None => ({| user := None |}, [])
    end
  else ({| user := None |}, []).

(** [!user?.isAdmin] *)
Definition not_admin (u : option Payload) : bool :=
  negb (JS.truthy_bool (option_map isAdmin u)).

(** ** Queries *)

Definition me (ctx : Context) : M (option User.t) :=
  match user ctx with
  | None => throw Unauthorized
  | Some u => gets (fun w => User.findById (id u) (Users w))
  end.

(** The filter [products] builds (index.js, 88-95). *)
Definition products_filter (args : ProductsArgs.t) : Product.Filter :=
  let filter := Product.empty_filter in
  let filter :=
    if JS.truthy_string (ProductsArgs.category args)
    then Product.set_category (ProductsArgs.category args) filter else filter in
  let filter :=
    if JS.truthy_string (ProductsArgs.brand args)
    then Product.set_brand (ProductsArgs.brand args) filter else filter in
  if JS.truthy_number (ProductsArgs.minPrice args)
     || JS.truthy_number (ProductsArgs.maxPrice args)
  then Product.set_price
         {| Product.gte := if JS.truthy_number (ProductsArgs.minPrice args)
                           then ProductsArgs.minPrice args else None;
            Product.lte := if JS.truthy_number (ProductsArgs.maxPrice args)
                           then ProductsArgs.maxPrice args else None |}
         filter
  else filter.

(** The query [products] builds (index.js, 97-100). *)
Definition products_query (args : ProductsArgs.t) : Product.Query :=
  let query := Product.find (products_filter args) in
  let query := if JS.truthy_string (ProductsArgs.sortBy args)
               then Product.sort query (ProductsArgs.sortBy args) else query in
  let query := if JS.truthy_int (ProductsArgs.skip args)
               then Product.skip query (ProductsArgs.skip args) else query in
  if JS.truthy_int (ProductsArgs.limit args)
  then Product.limit query (ProductsArgs.limit args) else query.

Definition products (args : ProductsArgs.t) : M (list Product.t) :=
  fun w => (Store.exec (products_query args) (Products w), w).

(** ** Mutations *)

Definition register (username password : string) (isAdmin : option bool)
  : M string :=
  let* existing := gets (fun w => User.findOne username (Users w)) in
  match existing with
  | Some _ => throw Conflict
  | None =>
      let* salt := draw_salt in
      let hashed := bcrypt_hash password 10 salt in
      let* oid := new_ObjectId in
      User_save {| User._id := oid; User.username := username;
                   User.password := hashed;
                   User.isAdmin := JS.or_bool isAdmin false |} ;;
      ret "User registered"
  end.

(** [now] is the clock [jwt.sign] reads. *)
Definition login (username password : string) (now : Z) : M string :=
  let* found := gets (fun w => User.findOne username (Users w)) in
  match found with
  | None => throw UserNotFound
  | Some u =>
      let isMatch := bcrypt_compare password (User.password u) in
      if negb isMatch then throw InvalidCredentials
      else ret (jwt_sign (User._id u) (User.isAdmin u) JWT_SECRET one_day now)
  end.

Definition addProduct (args : AddProductArgs.t) (ctx : Context) : M Product.t :=
  if not_admin (user ctx) then throw Unauthorized
  else
    let* oid := new_ObjectId in
    Product_save (new_Product oid args).

Definition updateProduct (args : UpdateProductArgs.t) (ctx : Context)
  : M Product.t :=
  if not_admin (user ctx) then throw Unauthorized
  else
    let* updated := Product_findByIdAndUpdate (UpdateProductArgs.id args) args in
    match updated with
    | None => throw ProductNotFound
    | Some p => ret p
    end.

Definition deleteProduct (pid : string) (ctx : Context) : M string :=
  if not_admin (user ctx) then throw Unauthorized
  else
    let* result := Product_findByIdAndDelete pid in
    match result with
    | None => throw ProductNotFound
    | Some _ => ret "Product deleted successfully"
    end.

(** ** A request: one operation, run in the context of its credential *)

Inductive Operation : Type :=
| OpMe
| OpProducts (args : ProductsArgs.t)
| OpRegister (username password : string) (isAdmin : option bool)
| OpLogin (username password : string)
| OpAddProduct (args : AddProductArgs.t)
| OpUpdateProduct (args : UpdateProductArgs.t)
| OpDeleteProduct (pid : string).

(** The world after serving a request at time [now]; the response is
    dropped. *)
Definition serve (req : Request) (now : Z) (op : Operation) (w : World) : World :=
  let ctx := fst (context req now) in
  match op with
  | OpMe => snd (me ctx w)
  | OpProducts args => snd (products args w)
  | OpRegister u p a => snd (register u p a w)
  | OpLogin u p => snd (login u p now w)
  | OpAddProduct args => snd (addProduct args ctx w)
  | OpUpdateProduct args => snd (updateProduct args ctx w)
  | OpDeleteProduct pid => snd (deleteProduct pid ctx w)
  end.

(** Serving a sequence of requests, oldest first. *)
Fixpoint serve_all (reqs : list (Request * Z * Operation)) (w : World) : World :=
  match reqs with
  | [] => w
  | (req, now, op) :: rest => serve_all rest (serve req now op w)
  end.

End Resolvers.

(** ** A small instance of the libraries, to run the resolvers *)

Module Sample.

(** Self-delimiting binary numerals. *)
Fixpoint enc_pos (p : positive) : string :=
  match p with
  | xH => String "." EmptyString
  | xO q => String "0" (enc_pos q)
  | xI q => String "1" (enc_pos q)
  end.

Fixpoint dec_pos (s : string) : option (positive * string) :=
  match s with
  | EmptyString => None
  | String c r =>
      if Ascii.eqb c "." then Some (xH, r)
      else if Ascii.eqb c "0" then
        match dec_pos r with Some (q, r') => Some (xO q, r') | None => None end
      else if Ascii.eqb c "1" then
        match dec_pos r with Some (q, r') => Some (xI q, r') | None => None end
      else None
  end.

Definition enc_Z (z : Z) : string :=
  match z with
  | Z0 => String "z" EmptyString
  | Zpos p => String "p" (enc_pos p)
  | Zneg p => String "n" (enc_pos p)
  end.

Definition dec_Z (s : string) : option (Z * string) :=
  match s with
  | EmptyString => None
  | String c r =>
      if Ascii.eqb c "z" then Some (0%Z, r)
      else if Ascii.eqb c "p" then
        match dec_pos r with Some (q, r') => Some (Zpos q, r') | None => None end
      else if Ascii.eqb c "n" then
        match dec_pos r with Some (q, r') => Some (Zneg q, r') | None => None end
      else None
  end.

Definition enc_bool (b : bool) : string :=
  if b then String "t" EmptyString else String "f" EmptyString.

Definition dec_bool (s : string) : option (bool * string) :=
  match s with
  | EmptyString => None
  | String c r =>
      if Ascii.eqb c "t" then Some (true, r)
      else if Ascii.eqb c "f" then Some (false, r)
      else None
  end.

(** A salted digest: the salt, then the data with every character shifted
    by the salt and the number of rounds. *)
Fixpoint scramble (k : N) (data : string) : string :=
  match data with
  | EmptyString => EmptyString
  | String c r =>
      String (ascii_of_N ((N_of_ascii c + k) mod 256)) (scramble k r)
  end.

Definition hash (data : string) (rounds : nat) (salt : N) : string :=
  enc_Z (Z.of_N salt) ++ enc_Z (Z.of_nat rounds)
  ++ scramble (salt + N.of_nat rounds) data.

Definition compare (data digest : string) : bool :=
  match dec_Z digest with
  | Some (salt, r1) =>
      match dec_Z r1 with
      | Some (rounds, rest) => rest =? scramble (Z.to_N salt + Z.to_N rounds) data
      | None => false
      end
  | None => false
  end.

(** A token: the four claims, then the key as its tag. *)
Definition encode (p : Payload) (key : string) : string :=
  enc_Z (Z.of_N (id p)) ++ enc_bool (isAdmin p) ++ enc_Z (iat p)
  ++ enc_Z (exp p) ++ key.

Definition decode (token key : string) : JwsResult :=
  match dec_Z token with
  | None => Malformed
  | Some (i, r1) =>
      match dec_bool r1 with
      | None => Malformed
      | Some (a, r2) =>
          match dec_Z r2 with
          | None => Malformed
          | Some (t0, r3) =>
              match dec_Z r3 with
              | None => Malformed
              | Some (t1, tag) =>
                  if tag =? key
                  then Decoded {| id := Z.to_N i; isAdmin := a;
                                  iat := t0; exp := t1 |}
                  else BadSignature
              end
          end
      end
  end.

(** Ascending by price, documents without a price first; ties keep their
    order.  Any other specification leaves the order as found. *)
Definition price_le (a b : Product.t) : bool :=
  match Product.price a, Product.price b with
  | None, _ => true
  | Some _, None => false
  | Some x, Some y => Qle_bool x y
  end.

Fixpoint insert_by_price (p : Product.t) (sorted : list Product.t)
  : list Product.t :=
  match sorted with
  | [] => [p]
  | q :: rest => if price_le p q then p :: q :: rest
                 else q :: insert_by_price p rest
  end.

Definition sort (spec : string) (docs : list Product.t) : list Product.t :=
  if spec =? "price" then fold_right insert_by_price [] docs else docs.

(** An id casts when it is written as 24 hexadecimal digits. *)
Definition hex_digit (c : ascii) : option N :=
  let n := N_of_ascii c in
  if ((48 <=? n) && (n <=? 57))%N then Some (n - 48)%N
  else if ((97 <=? n) && (n <=? 102))%N then Some (n - 87)%N
  else if ((65 <=? n) && (n <=? 70))%N then Some (n - 55)%N
  else None.

Fixpoint hex_value (s : string) (acc : N) : option N :=
  match s with
  | EmptyString => Some acc
  | String c r =>
      match hex_digit c with
      | Some d => hex_value r (16 * acc + d)%N
      | None => None
      end
  end.

Definition cast (s : string) : option ObjectId :=
  if (String.length s =? 24)%nat then hex_value s 0%N else None.

Definition externals : Externals := {|
  bcrypt_hash := hash;
  bcrypt_compare := compare;
  jws_encode := encode;
  jws_decode := decode;
  JWT_SECRET := "s3cret";
  store_sort := sort;
  cast_ObjectId := cast
|}.

End Sample.

(** ** A sample catalog *)

Module Catalog.

Definition item (oid : ObjectId) (nm : string) (pr : Q) (cat : string)
  : Product.t :=
  {| Product._id := oid; Product.name := Some nm; Product.description := None;
     Product.price := Some pr; Product.category := Some cat;
     Product.brand := None; Product.rating := None |}.

Definition pen : Product.t := item 1%N "Pen" 3 "Office".
Definition lamp : Product.t := item 2%N "Lamp" 7 "Home".
Definition desk : Product.t := item 3%N "Desk" 12 "Office".
Definition mug : Product.t := item 4%N "Mug" (5 # 2) "X".
Definition rug : Product.t := item 5%N "Rug" 20 "Home".
Definition cup : Product.t := item 6%N "Cup" 1 "X".

Definition alice : User.t :=
  {| User._id := 7%N; User.username := "alice";
     User.password := Sample.hash "pw1" 10 0%N; User.isAdmin := false |}.

Definition world : World :=
  {| Products := [pen; lamp; desk; mug; rug; cup]; Users := [alice];
     nextOid := 8%N; entropy := 1%N |}.

Definition empty : World :=
  {| Products := []; Users := []; nextOid := 0%N; entropy := 0%N |}.

(** All products, cheapest first. *)
Definition by_price : ProductsArgs.t :=
  {| ProductsArgs.category := None; ProductsArgs.brand := None;
     ProductsArgs.minPrice := None; ProductsArgs.maxPrice := None;
     ProductsArgs.sortBy := Some "price"; ProductsArgs.limit := None;
     ProductsArgs.skip := None |}.

Definition anonymous : Context := {| user := None |}.

Definition alice_identity : Context :=
  {| user := Some {| id := 7%N; isAdmin := false; iat := 100%Z; exp := 86500%Z |} |}.

Definition admin_identity : Context :=
  {| user := Some {| id := 9%N; isAdmin := true; iat := 100%Z; exp := 86500%Z |} |}.

End Catalog.

(** ** Vocabulary of the statements *)

(** The callers the admin guard turns away: no identity, or an identity
    whose [isAdmin] is false. *)
Definition unprivileged (ctx : Context) : Prop :=
  user ctx = None \/ exists p, user ctx = Some p /\ isAdmin p = false.

(** A caller with an admin identity. *)
Definition privileged (ctx : Context) : Prop :=
  exists p, user ctx = Some p /\ isAdmin p = true.

(** A user with this username is stored. *)
Definition username_taken (u : string) (w : World) : Prop :=
  exists x, In x (Users w) /\ User.username x = u.

(** A product with this id is stored. *)
Definition product_exists (pid : ObjectId) (w : World) : Prop :=
  exists q, In q (Products w) /\ Product._id q = pid.

(** The world after a successful [register]. *)
Definition registered {ext : Externals} (u p : string) (a : option bool)
  (w : World) : World :=
  {| Products := Products w;
     Users := Users w ++
       [ {| User._id := nextOid w; User.username := u;
            User.password := bcrypt_hash p 10 (entropy w);
            User.isAdmin := JS.or_bool a false |} ];
     nextOid := N.succ (nextOid w);
     entropy := N.succ (entropy w) |}.

(** The token the context is built from: the second word of the
    [authorization] header. *)
Definition presented_token (req : Request) : option string :=
  JS.index (JS.split " " (JS.or_string (authorization req) "")) 1.

(** The three ways a presented token is invalid at time [now]. *)
Definition token_malformed {ext : Externals} (tok : string) : Prop :=
  jws_decode tok JWT_SECRET = Malformed.

Definition token_tampered {ext : Externals} (tok : string) : Prop :=
  jws_decode tok JWT_SECRET = BadSignature.

Definition token_expired {ext : Externals} (tok : string) (now : Z) : Prop :=
  exists p, jws_decode tok JWT_SECRET = Decoded p /\ (exp p <= now / 1000)%Z.

(** A price bound is in force when it is supplied and not zero. *)
Definition in_force (bound : option Q) : option Q :=
  match bound with
  | Some q => if Qeq_bool q 0 then None else Some q
  | None => None
  end.

(** The product has a price, within the bounds given. *)
Definition price_within (lo hi : option Q) (p : Product.t) : Prop :=
  exists x, Product.price p = Some x
            /\ (forall a, lo = Some a -> (a <= x)%Q)
            /\ (forall b, hi = Some b -> (x <= b)%Q).

(** The product satisfies the category and brand arguments that are not
    empty. *)
Definition labels_match (args : ProductsArgs.t) (p : Product.t) : Prop :=
  (JS.truthy_string (ProductsArgs.category args) = true ->
     Product.category p = ProductsArgs.category args)
  /\ (JS.truthy_string (ProductsArgs.brand args) = true ->
        Product.brand p = ProductsArgs.brand args).

(** The query is not paginated: [skip] and [limit] are absent or zero. *)
Definition unpaginated (args : ProductsArgs.t) : Prop :=
  JS.truthy_int (ProductsArgs.skip args) = false
  /\ JS.truthy_int (ProductsArgs.limit args) = false.

(** The store accepts the query: [skip] is not negative. *)
Definition skip_accepted (args : ProductsArgs.t) : Prop :=
  forall n, ProductsArgs.skip args = Some n -> (0 <= n)%Z.

(** The stored category of the product is [c]. *)
Definition has_category (c : string) (p : Product.t) : bool :=
  Store.eq_cond (Some c) (Product.category p).

(** ** Further vocabulary: well-formed worlds, headers, outcomes *)

(** Every stored document received its [_id] from the generator before the
    generator's present value. *)
Definition ids_below (w : World) : Prop :=
  (forall p, In p (Products w) -> (Product._id p < nextOid w)%N)
  /\ (forall u, In u (Users w) -> (User._id u < nextOid w)%N).

(** No two documents of a collection share an [_id], and no two users share
    a username. *)
Definition well_formed (w : World) : Prop :=
  ids_below w
  /\ NoDup (map Product._id (Products w))
  /\ NoDup (map User._id (Users w))
  /\ NoDup (map User.username (Users w)).

(** The string holds no space. *)
Fixpoint no_space (s : string) : bool :=
  match s with
  | EmptyString => true
  | String c r => negb (Ascii.eqb c " ") && no_space r
  end.

(** [parts.join(sep)] for a one-character separator. *)
Fixpoint join (sep : ascii) (parts : list string) : string :=
  match parts with
  | [] => EmptyString
  | [w] => w
  | w :: rest => w ++ String sep (join sep rest)
  end.

(** The number of occurrences of a character. *)
Fixpoint occurrences (c : ascii) (s : string) : nat :=
  match s with
  | EmptyString => 0
  | String d r => (if Ascii.eqb d c then 1 else 0) + occurrences c r
  end.

(** What a response carries when the resolver threw. *)
Definition failure_of {A} (r : Result A) : option Exn :=
  match r with
  | Ok _ => None
  | Throw e => Some e
  end.

(** The error of the response to a request, if any. *)
Definition failure {ext : Externals} (req : Request) (now : Z) (op : Operation)
  (w : World) : option Exn :=
  let ctx := fst (context req now) in
  match op with
  | OpMe => failure_of (fst (me ctx w))
  | OpProducts args => failure_of (fst (products args w))
  | OpRegister u p a => failure_of (fst (register u p a w))
  | OpLogin u p => failure_of (fst (login u p now w))
  | OpAddProduct args => failure_of (fst (addProduct args ctx w))
  | OpUpdateProduct args => failure_of (fst (updateProduct args ctx w))
  | OpDeleteProduct pid => failure_of (fst (deleteProduct pid ctx w))
  end.

(** An update document with the id alone. *)
Definition only_id (pid : string) : UpdateProductArgs.t :=
  {| UpdateProductArgs.id := pid; UpdateProductArgs.name := None;
     UpdateProductArgs.description := None; UpdateProductArgs.price := None;
     UpdateProductArgs.category := None; UpdateProductArgs.brand := None;
     UpdateProductArgs.rating := None |}.

(** Arguments used to run the mutations on the sample catalog. *)
Definition widget : AddProductArgs.t :=
  {| AddProductArgs.name := "Widget"; AddProductArgs.description := None;
     AddProductArgs.price := (999 # 100)%Q; AddProductArgs.category := None;
     AddProductArgs.brand := None; AddProductArgs.rating := None |}.

Definition reprice_lamp : UpdateProductArgs.t :=
  {| UpdateProductArgs.id := "000000000000000000000002";
     UpdateProductArgs.name := None;
     UpdateProductArgs.description := Some (Some "Table lamp");
     UpdateProductArgs.price := Some (Some 8%Q);
     UpdateProductArgs.category := None; UpdateProductArgs.brand := None;
     UpdateProductArgs.rating := None |}.

(** How updateProduct treats one field: set to the value given when the
    key is present in the arguments, kept otherwise. *)
Definition field_updated {A} (given : option (option A)) (old new : option A)
  : Prop :=
  (given = None -> new = old) /\ (forall v, given = Some v -> new = v).

(** * Properties *)

(** ** The admin guard *)

Lemma not_admin_anonymous : not_admin None = true.
Proof. reflexivity. Qed.

Lemma not_admin_flag (p : Payload) : not_admin (Some p) = negb (isAdmin p).
Proof. reflexivity. Qed.

Lemma unprivileged_not_admin (ctx : Context) :
  unprivileged ctx -> not_admin (user ctx) = true.
Proof.
  intros [Hnone | [p [Hsome Hflag]]].
  - rewrite Hnone. apply not_admin_anonymous.
  - rewrite Hsome, not_admin_flag, Hflag. reflexivity.
Qed.

Lemma admin_guard_rejects {ext : Externals} (ctx : Context) (w : World) :
  unprivileged ctx ->
  (forall args, addProduct args ctx w = (Throw Unauthorized, w))
  /\ (forall args, updateProduct args ctx w = (Throw Unauthorized, w))
  /\ (forall pid, deleteProduct pid ctx w = (Throw Unauthorized, w)).
Proof.
  intros Hctx. apply unprivileged_not_admin in Hctx.
  unfold addProduct, updateProduct, deleteProduct.
  rewrite Hctx. repeat split.
Qed.

(** C1: addProduct, updateProduct and deleteProduct invoked without an
    identity, or with an identity whose isAdmin is false, fail with
    Unauthorized and leave the whole world (both collections and the
    generators) as it was. *)
Theorem mutations_require_admin {ext : Externals} (ctx : Context) (w : World) :
  unprivileged ctx ->
  (forall args, addProduct args ctx w = (Throw Unauthorized, w))
  /\ (forall args, updateProduct args ctx w = (Throw Unauthorized, w))
  /\ (forall pid, deleteProduct pid ctx w = (Throw Unauthorized, w)).
Proof. exact (admin_guard_rejects ctx w). Qed.

Lemma mutations_require_admin_witness :
  unprivileged Catalog.alice_identity
  /\ (forall args,
        addProduct args Catalog.alice_identity Catalog.world
        = (Throw Unauthorized, Catalog.world))
  /\ (forall args,
        updateProduct (ext := Sample.externals) args Catalog.alice_identity
          Catalog.world
        = (Throw Unauthorized, Catalog.world))
  /\ (forall pid,
        deleteProduct (ext := Sample.externals) pid Catalog.alice_identity
          Catalog.world
        = (Throw Unauthorized, Catalog.world)).
Proof.
  assert (Hctx : unprivileged Catalog.alice_identity).
  { right. eexists. split; reflexivity. }
  split; [exact Hctx |].
  exact (mutations_require_admin (ext := Sample.externals)
           Catalog.alice_identity Catalog.world Hctx).
Defined.

(** C2 (as stated, refuted): [me] is not behind the admin guard.  A caller
    with a verified identity that is not an admin is turned away by the
    guard of the mutations, yet [me] answers with the stored user. *)
Lemma me_serves_non_admin :
  unprivileged Catalog.alice_identity
  /\ me Catalog.alice_identity Catalog.world
     = (Ok (Some Catalog.alice), Catalog.world)
  /\ fst (me Catalog.alice_identity Catalog.world) <> Throw Unauthorized.
Proof.
  split; [right; eexists; split; reflexivity |].
  split; [reflexivity | discriminate].
Qed.

(** C2 (amended): the admin guard stands before addProduct, updateProduct
    and deleteProduct, where a caller without identity and a caller with a
    non-admin identity receive the same Unauthorized error; [me] only
    requires an identity: without one it fails with that same error, with
    one (admin or not) it passes the guard and looks the user up. *)
Theorem guards_of_operations {ext : Externals} (anon other : Context)
  (w : World) :
  user anon = None ->
  (exists p, user other = Some p /\ isAdmin p = false) ->
  (forall args, addProduct args anon w = (Throw Unauthorized, w)
                /\ addProduct args other w = (Throw Unauthorized, w))
  /\ (forall args, updateProduct args anon w = (Throw Unauthorized, w)
                   /\ updateProduct args other w = (Throw Unauthorized, w))
  /\ (forall pid, deleteProduct pid anon w = (Throw Unauthorized, w)
                  /\ deleteProduct pid other w = (Throw Unauthorized, w))
  /\ me anon w = (Throw Unauthorized, w)
  /\ (forall ctx p, user ctx = Some p ->
        me ctx w = (Ok (User.findById (id p) (Users w)), w)).
Proof.
  intros Hanon Hother.
  assert (Ha : unprivileged anon) by (left; exact Hanon).
  assert (Ho : unprivileged other) by (right; exact Hother).
  destruct (admin_guard_rejects anon w Ha) as (Ha1 & Ha2 & Ha3).
  destruct (admin_guard_rejects other w Ho) as (Ho1 & Ho2 & Ho3).
  repeat split; auto.
  - unfold me. rewrite Hanon. reflexivity.
  - intros ctx p Hp. unfold me. rewrite Hp. reflexivity.
Qed.

Lemma guards_of_operations_witness :
  (forall pid,
     deleteProduct (ext := Sample.externals) pid Catalog.anonymous
       Catalog.world
     = (Throw Unauthorized, Catalog.world)
     /\ deleteProduct (ext := Sample.externals) pid Catalog.alice_identity
          Catalog.world
        = (Throw Unauthorized, Catalog.world))
  /\ me Catalog.anonymous Catalog.world = (Throw Unauthorized, Catalog.world).
Proof.
  assert (Hanon : user Catalog.anonymous = None) by reflexivity.
  assert (Hother : exists p, user Catalog.alice_identity = Some p
                             /\ isAdmin p = false).
  { eexists. split; reflexivity. }
  destruct (guards_of_operations (ext := Sample.externals) Catalog.anonymous
              Catalog.alice_identity Catalog.world Hanon Hother)
    as (_ & _ & Hdel & Hme & _).
  split; assumption.
Defined.

(** ** Lookups in the collections *)

Lemma findOne_None (u : string) (w : World) :
  ~ username_taken u w -> User.findOne u (Users w) = None.
Proof.
  intros Hfree. unfold User.findOne.
  destruct (find _ (Users w)) as [x |] eqn:Hfind; [| reflexivity].
  apply find_some in Hfind. destruct Hfind as [Hin Heq].
  apply String.eqb_eq in Heq.
  exfalso. apply Hfree. exists x. split; assumption.
Qed.

Lemma findOne_Some (u : string) (w : World) :
  username_taken u w -> exists x, User.findOne u (Users w) = Some x.
Proof.
  intros [x [Hin Heq]]. unfold User.findOne.
  destruct (find _ (Users w)) as [y |] eqn:Hfind; [exists y; reflexivity |].
  pose proof (find_none _ _ Hfind x Hin) as Hno. cbv beta in Hno.
  rewrite Heq, String.eqb_refl in Hno. discriminate.
Qed.

Lemma findOne_stored (u : string) (us : list User.t) (x : User.t) :
  User.findOne u us = Some x -> In x us /\ User.username x = u.
Proof.
  unfold User.findOne. intros Hfind. apply find_some in Hfind.
  destruct Hfind as [Hin Heq]. apply String.eqb_eq in Heq. tauto.
Qed.

Lemma findById_None (pid : ObjectId) (w : World) :
  ~ product_exists pid w -> Store.findById pid (Products w) = None.
Proof.
  intros Hnone. unfold Store.findById.
  destruct (find _ (Products w)) as [q |] eqn:Hfind; [| reflexivity].
  apply find_some in Hfind. destruct Hfind as [Hin Heq].
  unfold Store.has_id in Heq. apply N.eqb_eq in Heq.
  exfalso. apply Hnone. exists q. split; assumption.
Qed.

(** ** Mutations of the catalog by an admin *)

(** C8 (as stated, refuted): an admin deletes, or updates, the id "42", which
    no stored product has; it is not a well-formed ObjectId, the cast of
    the store driver fails, and the operation fails with that CastError,
    not with NotFound. *)
Lemma malformed_id_is_cast_error :
  privileged Catalog.admin_identity
  /\ cast_ObjectId (Externals := Sample.externals) "42" = None
  /\ deleteProduct (ext := Sample.externals) "42" Catalog.admin_identity
       Catalog.world
     = (Throw CastError, Catalog.world)
  /\ updateProduct (ext := Sample.externals) (only_id "42")
       Catalog.admin_identity Catalog.world
     = (Throw CastError, Catalog.world)
  /\ Throw (A := string) CastError <> Throw ProductNotFound.
Proof.
  split; [eexists; split; reflexivity |].
  repeat split; try reflexivity. discriminate.
Qed.

(** C8 (amended): with an admin identity, updateProduct and deleteProduct
    on an id that is a well-formed ObjectId (it casts) and that no stored
    product has fail with NotFound ("Product not found") and leave the
    world as it was; on an id that does not cast they fail with the
    CastError of the store driver, the world also as it was. *)
Theorem missing_product_not_found {ext : Externals} (ctx : Context)
  (pid : string) (w : World) :
  privileged ctx ->
  (forall oid, cast_ObjectId pid = Some oid ->
     ~ product_exists oid w ->
     (forall args, UpdateProductArgs.id args = pid ->
        updateProduct args ctx w = (Throw ProductNotFound, w))
     /\ deleteProduct pid ctx w = (Throw ProductNotFound, w))
  /\ (cast_ObjectId pid = None ->
      (forall args, UpdateProductArgs.id args = pid ->
         updateProduct args ctx w = (Throw CastError, w))
      /\ deleteProduct pid ctx w = (Throw CastError, w)).
Proof.
  intros [p [Hp Hadm]].
  assert (Hguard : not_admin (user ctx) = false).
  { rewrite Hp, not_admin_flag, Hadm. reflexivity. }
  unfold updateProduct, deleteProduct, Product_findByIdAndUpdate,
    Product_findByIdAndDelete.
  rewrite Hguard. split.
  - intros oid Hcast Hnone. apply findById_None in Hnone. split.
    + intros args Hid. rewrite Hid, Hcast. unfold bind, gets.
      rewrite Hnone. reflexivity.
    + rewrite Hcast. unfold bind, gets. rewrite Hnone. reflexivity.
  - intros Hcast. split.
    + intros args Hid. rewrite Hid, Hcast. reflexivity.
    + rewrite Hcast. reflexivity.
Qed.

Lemma missing_product_not_found_witness :
  deleteProduct (ext := Sample.externals) "00000000000000000000002a"
    Catalog.admin_identity Catalog.world
  = (Throw ProductNotFound, Catalog.world)
  /\ deleteProduct (ext := Sample.externals) "42" Catalog.admin_identity
       Catalog.world
     = (Throw CastError, Catalog.world).
Proof.
  assert (Hadm : privileged Catalog.admin_identity).
  { eexists. split; reflexivity. }
  assert (Hnone : ~ product_exists 42%N Catalog.world).
  { intros [q [Hin Hid]]. simpl in Hin.
    repeat (destruct Hin as [Hin | Hin]; [subst q; discriminate Hid |]).
    exact Hin. }
  split.
  - exact (proj2 (proj1 (missing_product_not_found (ext := Sample.externals)
                           Catalog.admin_identity "00000000000000000000002a"
                           Catalog.world Hadm)
                    42%N eq_refl Hnone)).
  - exact (proj2 (proj2 (missing_product_not_found (ext := Sample.externals)
                           Catalog.admin_identity "42" Catalog.world Hadm)
                    eq_refl)).
Defined.

(** ** Accounts *)

(** C7: login fails with NotFound ("User not found") when no user has the
    username, with InvalidCredentials when the password does not verify
    against the stored hash of the user found, and otherwise returns the
    token signed for that user; the world is the same afterwards in every
    case. *)
Theorem login_outcomes {ext : Externals} (u p : string) (now : Z) (w : World) :
  snd (login u p now w) = w
  /\ (~ username_taken u w -> fst (login u p now w) = Throw UserNotFound)
  /\ (forall x, User.findOne u (Users w) = Some x ->
        bcrypt_compare p (User.password x) = false ->
        fst (login u p now w) = Throw InvalidCredentials)
  /\ (forall x, User.findOne u (Users w) = Some x ->
        bcrypt_compare p (User.password x) = true ->
        fst (login u p now w)
        = Ok (jwt_sign (User._id x) (User.isAdmin x) JWT_SECRET one_day now)).
Proof.
  unfold login, bind, gets, throw, ret.
  repeat split.
  - destruct (User.findOne u (Users w)) as [x |]; [| reflexivity].
    destruct (bcrypt_compare p (User.password x)); reflexivity.
  - intros Hfree. rewrite (findOne_None u w Hfree). reflexivity.
  - intros x Hx Hcmp. rewrite Hx, Hcmp. reflexivity.
  - intros x Hx Hcmp. rewrite Hx, Hcmp. reflexivity.
Qed.

Lemma login_outcomes_witness :
  fst (login (ext := Sample.externals) "bob" "pw" 5000%Z Catalog.world)
  = Throw UserNotFound
  /\ fst (login (ext := Sample.externals) "alice" "pw2" 5000%Z Catalog.world)
     = Throw InvalidCredentials
  /\ fst (login (ext := Sample.externals) "alice" "pw1" 5000%Z Catalog.world)
     = Ok (jwt_sign (ext := Sample.externals) 7%N false "s3cret" one_day 5000%Z).
Proof.
  assert (Hbob : ~ username_taken "bob" Catalog.world).
  { intros [x [Hin Hname]]. simpl in Hin.
    destruct Hin as [Hin | []]. subst x. discriminate Hname. }
  assert (Halice : User.findOne "alice" (Users Catalog.world)
                   = Some Catalog.alice) by reflexivity.
  split; [| split].
  - exact (proj1 (proj2 (login_outcomes (ext := Sample.externals)
                           "bob" "pw" 5000%Z Catalog.world)) Hbob).
  - refine (proj1 (proj2 (proj2 (login_outcomes (ext := Sample.externals)
                                   "alice" "pw2" 5000%Z Catalog.world)))
              Catalog.alice Halice _).
    reflexivity.
  - refine (proj2 (proj2 (proj2 (login_outcomes (ext := Sample.externals)
                                   "alice" "pw1" 5000%Z Catalog.world)))
              Catalog.alice Halice _).
    reflexivity.
Defined.

Lemma register_fresh {ext : Externals} (u p : string) (a : option bool)
  (w : World) :
  User.findOne u (Users w) = None ->
  register u p a w = (Ok "User registered", registered u p a w).
Proof.
  intros Hfree.
  unfold register, bind, gets, draw_salt, new_ObjectId, User_save, bind,
    gets, modify, ret.
  rewrite Hfree. cbn [Users User.username fst snd].
  rewrite Hfree. reflexivity.
Qed.

Lemma register_taken {ext : Externals} (u p : string) (a : option bool)
  (w : World) (x : User.t) :
  User.findOne u (Users w) = Some x ->
  register u p a w = (Throw Conflict, w).
Proof.
  intros Hx. unfold register, bind, gets, throw. rewrite Hx. reflexivity.
Qed.

(** C6: register fails with Conflict ("Username already exists") and
    inserts nothing when a user with the username is stored; otherwise it
    appends one user whose password field is the bcrypt digest of the
    password (cost 10, fresh salt), never the password as given to the
    resolver, and returns the marker "User registered", which is not a
    token. *)
Theorem register_outcomes {ext : Externals} (u p : string) (a : option bool)
  (w : World) :
  (username_taken u w -> register u p a w = (Throw Conflict, w))
  /\ (~ username_taken u w ->
      register u p a w = (Ok "User registered", registered u p a w)
      /\ Users (registered u p a w)
         = Users w ++ [ {| User._id := nextOid w; User.username := u;
                           User.password := bcrypt_hash p 10 (entropy w);
                           User.isAdmin := JS.or_bool a false |} ]
      /\ Products (registered u p a w) = Products w).
Proof.
  split.
  - intros Htaken. apply findOne_Some in Htaken. destruct Htaken as [x Hx].
    exact (register_taken u p a w x Hx).
  - intros Hfree. apply findOne_None in Hfree.
    split; [| split; reflexivity].
    exact (register_fresh u p a w Hfree).
Qed.

Lemma register_outcomes_witness :
  register (ext := Sample.externals) "alice" "pw2" None Catalog.world
  = (Throw Conflict, Catalog.world)
  /\ register (ext := Sample.externals) "admin" "pw" (Some true) Catalog.empty
     = (Ok "User registered",
        registered (ext := Sample.externals) "admin" "pw" (Some true)
          Catalog.empty).
Proof.
  assert (Htaken : username_taken "alice" Catalog.world).
  { exists Catalog.alice. split; [left |]; reflexivity. }
  assert (Hfree : ~ username_taken "admin" Catalog.empty).
  { intros [x [[] _]]. }
  split.
  - exact (proj1 (register_outcomes (ext := Sample.externals)
                    "alice" "pw2" None Catalog.world) Htaken).
  - exact (proj1 (proj2 (register_outcomes (ext := Sample.externals)
                           "admin" "pw" (Some true) Catalog.empty) Hfree)).
Defined.

(** ** Identity resolution *)

(** [jwt.verify] tells the three reasons apart ... *)
Lemma jwt_verify_reasons {ext : Externals} (tok : string) (now : Z) :
  (token_malformed tok ->
     jwt_verify tok JWT_SECRET now = Throw (JsonWebTokenError "jwt malformed"))
  /\ (token_tampered tok ->
        jwt_verify tok JWT_SECRET now
        = Throw (JsonWebTokenError "invalid signature"))
  /\ (token_expired tok now ->
        jwt_verify tok JWT_SECRET now = Throw TokenExpiredError).
Proof.
  unfold token_malformed, token_tampered, token_expired, jwt_verify.
  repeat split.
  - intros Hd. rewrite Hd. reflexivity.
  - intros Hd. rewrite Hd. reflexivity.
  - intros [p [Hd Hexp]]. rewrite Hd.
    apply Z.leb_le in Hexp. rewrite Hexp. reflexivity.
Qed.

(** ... and the context does not: whatever [jwt.verify] throws, the user
    is [null] and the console shows the same line. *)
Lemma context_of_rejected {ext : Externals} (req : Request) (now : Z)
  (tok : string) (e : Exn) :
  presented_token req = Some tok ->
  jwt_verify tok JWT_SECRET now = Throw e ->
  context req now
  = ({| user := None |}, if tok =? "" then [] else [" Invalid token"]).
Proof.
  unfold presented_token, context. intros Htok Hverify.
  rewrite Htok. cbn [JS.truthy_string].
  destruct (tok =? ""); cbn [negb]; [reflexivity |].
  rewrite Hverify. reflexivity.
Qed.

Lemma context_without_header {ext : Externals} (now : Z) :
  context {| authorization := None |} now = ({| user := None |}, []).
Proof. reflexivity. Qed.

(** C4: a presented token that is malformed, expired or wrongly signed
    yields no identity, exactly as a request without credential does;
    building the context returns in all three cases (it is a total
    function, the exception of jwt.verify is caught), and neither the
    context nor the console line depends on which of the three applied. *)
Theorem invalid_token_is_anonymous {ext : Externals} (req : Request) (now : Z)
  (tok : string) :
  presented_token req = Some tok ->
  token_malformed tok \/ token_tampered tok \/ token_expired tok now ->
  fst (context req now) = {| user := None |}
  /\ fst (context req now) = fst (context {| authorization := None |} now)
  /\ snd (context req now) = (if tok =? "" then [] else [" Invalid token"]).
Proof.
  intros Htok Hbad.
  destruct (jwt_verify_reasons tok now) as (Hm & Ht & He).
  assert (Hthrow : exists e, jwt_verify tok JWT_SECRET now = Throw e).
  { destruct Hbad as [H | [H | H]]; eexists; eauto. }
  destruct Hthrow as [e Hthrow].
  rewrite (context_of_rejected req now tok e Htok Hthrow).
  rewrite context_without_header. repeat split.
Qed.

Lemma invalid_token_is_anonymous_witness :
  fst (context (ext := Sample.externals)
         {| authorization := Some "Bearer p111.fp.p1010110.s3cret" |} 90000000%Z)
  = {| user := None |}
  /\ fst (context (ext := Sample.externals)
            {| authorization := Some "Bearer p111.fp.p1010110.wrong" |} 5000%Z)
     = {| user := None |}
  /\ fst (context (ext := Sample.externals)
            {| authorization := Some "Bearer garbage" |} 5000%Z)
     = {| user := None |}.
Proof.
  split; [| split].
  - refine (proj1 (invalid_token_is_anonymous (ext := Sample.externals)
                     _ 90000000%Z "p111.fp.p1010110.s3cret" _ _)).
    + reflexivity.
    + right. right. eexists. split; [reflexivity |].
      vm_compute. discriminate.
  - refine (proj1 (invalid_token_is_anonymous (ext := Sample.externals)
                     _ 5000%Z "p111.fp.p1010110.wrong" _ _)).
    + reflexivity.
    + right. left. reflexivity.
  - refine (proj1 (invalid_token_is_anonymous (ext := Sample.externals)
                     _ 5000%Z "garbage" _ _)).
    + reflexivity.
    + left. reflexivity.
Defined.

(** ** The sample libraries satisfy what the real ones guarantee *)

Lemma Sample_dec_pos_enc (p : positive) (rest : string) :
  Sample.dec_pos (Sample.enc_pos p ++ rest) = Some (p, rest).
Proof.
  induction p as [q IH | q IH |]; cbn; [rewrite IH | rewrite IH |]; reflexivity.
Qed.

Lemma Sample_dec_Z_enc (z : Z) (rest : string) :
  Sample.dec_Z (Sample.enc_Z z ++ rest) = Some (z, rest).
Proof.
  destruct z as [| q | q]; cbn; [| rewrite Sample_dec_pos_enc ..]; reflexivity.
Qed.

Lemma Sample_dec_bool_enc (b : bool) (rest : string) :
  Sample.dec_bool (Sample.enc_bool b ++ rest) = Some (b, rest).
Proof. destruct b; reflexivity. Qed.

Lemma Sample_bcrypt_correct : bcrypt_correct (ext := Sample.externals).
Proof.
  intros data rounds salt. cbn. unfold Sample.compare, Sample.hash.
  rewrite Sample_dec_Z_enc, Sample_dec_Z_enc.
  rewrite <- (nat_N_Z rounds), !N2Z.id.
  apply String.eqb_refl.
Qed.

Lemma Sample_jws_correct : jws_correct (ext := Sample.externals).
Proof.
  intros [i a t0 t1] key. cbn. unfold Sample.decode, Sample.encode. cbn.
  rewrite Sample_dec_Z_enc, Sample_dec_bool_enc.
  rewrite Sample_dec_Z_enc, Sample_dec_Z_enc.
  rewrite String.eqb_refl, N2Z.id. reflexivity.
Qed.

(** ** Users are only ever added *)

Lemma find_app_Some {A} (f : A -> bool) (l l' : list A) (x : A) :
  find f l = Some x -> find f (l ++ l') = Some x.
Proof.
  induction l as [| y l IH]; cbn; [discriminate |].
  destruct (f y); [trivial | exact IH].
Qed.

Lemma find_app_None {A} (f : A -> bool) (l l' : list A) :
  find f l = None -> find f (l ++ l') = find f l'.
Proof.
  induction l as [| y l IH]; cbn; [reflexivity |].
  destruct (f y); [discriminate | exact IH].
Qed.

Lemma register_keeps_user {ext : Externals} (u' p' : string) (a' : option bool)
  (u : string) (x : User.t) (w : World) :
  User.findOne u (Users w) = Some x ->
  User.findOne u (Users (snd (register u' p' a' w))) = Some x.
Proof.
  intros Hx.
  unfold register, bind, gets, draw_salt, new_ObjectId, User_save, bind,
    gets, modify, throw, ret.
  destruct (User.findOne u' (Users w)) as [y |] eqn:Hy; cbn [snd]; [exact Hx |].
  cbn [Users User.username fst snd]. rewrite Hy. cbn [snd Users with_Users].
  unfold with_Users. cbn [Users].
  unfold User.findOne in *. apply find_app_Some. exact Hx.
Qed.

Lemma addProduct_Users (args : AddProductArgs.t) (ctx : Context) (w : World) :
  Users (snd (addProduct args ctx w)) = Users w.
Proof.
  unfold addProduct. destruct (not_admin (user ctx)); reflexivity.
Qed.

Lemma updateProduct_Users {ext : Externals} (args : UpdateProductArgs.t)
  (ctx : Context) (w : World) :
  Users (snd (updateProduct args ctx w)) = Users w.
Proof.
  unfold updateProduct, Product_findByIdAndUpdate.
  destruct (not_admin (user ctx)); [reflexivity |].
  destruct (cast_ObjectId (UpdateProductArgs.id args)) as [oid |];
    [| reflexivity].
  unfold bind, gets, modify, ret, throw.
  destruct (Store.findById _ (Products w)); reflexivity.
Qed.

Lemma deleteProduct_Users {ext : Externals} (pid : string) (ctx : Context)
  (w : World) :
  Users (snd (deleteProduct pid ctx w)) = Users w.
Proof.
  unfold deleteProduct, Product_findByIdAndDelete.
  destruct (not_admin (user ctx)); [reflexivity |].
  destruct (cast_ObjectId pid) as [oid |]; [| reflexivity].
  unfold bind, gets, modify, ret, throw.
  destruct (Store.findById _ (Products w)); reflexivity.
Qed.

Lemma login_world {ext : Externals} (u p : string) (now : Z) (w : World) :
  snd (login u p now w) = w.
Proof.
  unfold login, bind, gets, throw, ret.
  destruct (User.findOne u (Users w)) as [x |]; [| reflexivity].
  destruct (bcrypt_compare p (User.password x)); reflexivity.
Qed.

Lemma me_world (ctx : Context) (w : World) : snd (me ctx w) = w.
Proof. unfold me. destruct (user ctx); reflexivity. Qed.

Lemma serve_keeps_user {ext : Externals} (req : Request) (now : Z)
  (op : Operation) (u : string) (x : User.t) (w : World) :
  User.findOne u (Users w) = Some x ->
  User.findOne u (Users (serve req now op w)) = Some x.
Proof.
  intros Hx. destruct op as [| args | u' p' a' | u' p' | args | args | pid];
    cbn [serve].
  - rewrite me_world. exact Hx.
  - exact Hx.
  - apply register_keeps_user. exact Hx.
  - rewrite login_world. exact Hx.
  - rewrite addProduct_Users. exact Hx.
  - rewrite updateProduct_Users. exact Hx.
  - rewrite deleteProduct_Users. exact Hx.
Qed.

Lemma serve_all_keeps_user {ext : Externals}
  (reqs : list (Request * Z * Operation)) (u : string) (x : User.t) (w : World) :
  User.findOne u (Users w) = Some x ->
  User.findOne u (Users (serve_all reqs w)) = Some x.
Proof.
  revert w. induction reqs as [| [[req now] op] rest IH]; intros w Hx.
  - exact Hx.
  - cbn [serve_all]. apply IH. apply serve_keeps_user. exact Hx.
Qed.

(** ** Register, then log in, then present the token *)



(** ** What the store returns for a query *)

Lemma In_firstn {A} (n : nat) (l : list A) (x : A) :
  In x (firstn n l) -> In x l.
Proof.
  intros Hin. rewrite <- (firstn_skipn n l). apply in_or_app. left. exact Hin.
Qed.

Lemma In_skipn {A} (n : nat) (l : list A) (x : A) :
  In x (skipn n l) -> In x l.
Proof.
  intros Hin. rewrite <- (firstn_skipn n l). apply in_or_app. right. exact Hin.
Qed.

Lemma In_apply_limit (n : option Z) (docs : list Product.t) (p : Product.t) :
  In p (Store.apply_limit n docs) -> In p docs.
Proof.
  unfold Store.apply_limit. destruct n as [z |]; [| trivial].
  destruct (z =? 0)%Z; [trivial | apply In_firstn].
Qed.

Lemma In_ordered {ext : Externals} (spec : option string)
  (docs : list Product.t) (p : Product.t) :
  sort_permutes ->
  (In p (match spec with
         | Some s => store_sort s docs
         | None => docs
         end) <-> In p docs).
Proof.
  intros Hsort. destruct spec as [s |]; [| tauto].
  split; intros Hin.
  - apply (Permutation_in p (Permutation_sym (Hsort s docs))). exact Hin.
  - apply (Permutation_in p (Hsort s docs)). exact Hin.
Qed.

(** Whatever [exec] returns was stored and matches the filter. *)
Lemma exec_sound {ext : Externals} (q : Product.Query) (coll found : list Product.t)
  (p : Product.t) :
  sort_permutes ->
  Store.exec q coll = Ok found ->
  In p found ->
  In p coll /\ Store.matches (Product.q_filter q) p = true.
Proof.
  intros Hsort Hexec Hin. unfold Store.exec in Hexec.
  assert (Hfrom : In p (List.filter (Store.matches (Product.q_filter q)) coll)).
  { apply (In_ordered (Product.q_sort q) _ p Hsort).
    destruct (Product.q_skip q) as [n |].
    - destruct (n <? 0)%Z; [discriminate |].
      injection Hexec as <-.
      apply In_apply_limit in Hin. apply In_skipn in Hin. exact Hin.
    - injection Hexec as <-. apply In_apply_limit in Hin. exact Hin. }
  apply filter_In in Hfrom. exact Hfrom.
Qed.

(** Without skip and limit, [exec] returns every stored match. *)
Lemma exec_complete {ext : Externals} (q : Product.Query) (coll : list Product.t) :
  sort_permutes ->
  Product.q_skip q = None ->
  Product.q_limit q = None ->
  exists found,
    Store.exec q coll = Ok found
    /\ forall p, In p found
                 <-> In p coll /\ Store.matches (Product.q_filter q) p = true.
Proof.
  intros Hsort Hskip Hlimit. unfold Store.exec. rewrite Hskip, Hlimit.
  eexists. split; [reflexivity |].
  intros p. cbn [Store.apply_limit].
  rewrite (In_ordered (Product.q_sort q) _ p Hsort).
  apply filter_In.
Qed.

(** When nothing matches, an accepted query returns the empty list. *)
Lemma exec_nothing {ext : Externals} (q : Product.Query) (coll : list Product.t) :
  sort_permutes ->
  (forall n, Product.q_skip q = Some n -> (0 <= n)%Z) ->
  (forall p, In p coll -> Store.matches (Product.q_filter q) p = false) ->
  Store.exec q coll = Ok [].
Proof.
  intros Hsort Hskip Hnone. unfold Store.exec.
  assert (Hempty : List.filter (Store.matches (Product.q_filter q)) coll = []).
  { induction coll as [| d coll IH]; [reflexivity |]. cbn.
    rewrite (Hnone d (or_introl eq_refl)).
    apply IH. intros p Hp. apply Hnone. right. exact Hp. }
  rewrite Hempty.
  assert (Hord : match Product.q_sort q with
                 | Some spec => store_sort spec []
                 | None => []
                 end = []).
  { destruct (Product.q_sort q) as [s |]; [| reflexivity].
    apply Permutation_nil. apply Hsort. }
  rewrite Hord.
  assert (Hlim : forall n, Store.apply_limit (Product.q_limit q) (skipn n [])
                           = []).
  { intros n. rewrite skipn_nil. unfold Store.apply_limit.
    destruct (Product.q_limit q) as [z |]; [| reflexivity].
    destruct (z =? 0)%Z; [reflexivity | apply firstn_nil]. }
  destruct (Product.q_skip q) as [n |] eqn:Hn.
  - destruct (Z.ltb_spec n 0) as [Hneg | _].
    + specialize (Hskip n eq_refl). lia.
    + rewrite Hlim. reflexivity.
  - f_equal. exact (Hlim 0%nat).
Qed.

(** ** The filter [products] builds *)

Lemma in_force_truthy (x : option Q) :
  (if JS.truthy_number x then x else None) = in_force x.
Proof.
  destruct x as [q |]; [| reflexivity].
  cbn. destruct (Qeq_bool q 0); reflexivity.
Qed.

Lemma truthy_in_force (x : option Q) :
  JS.truthy_number x = match in_force x with Some _ => true | None => false end.
Proof.
  destruct x as [q |]; [| reflexivity].
  cbn. destruct (Qeq_bool q 0); reflexivity.
Qed.

Lemma in_force_nonzero (q : Q) : ~ (q == 0)%Q -> in_force (Some q) = Some q.
Proof.
  intros Hq. cbn. destruct (Qeq_bool q 0) eqn:Hz; [| reflexivity].
  apply Qeq_bool_iff in Hz. contradiction.
Qed.

Lemma in_force_zero (q : Q) : (q == 0)%Q -> in_force (Some q) = None.
Proof.
  intros Hq. cbn. apply Qeq_bool_iff in Hq. rewrite Hq. reflexivity.
Qed.

Lemma filter_category (args : ProductsArgs.t) :
  Product.f_category (products_filter args)
  = if JS.truthy_string (ProductsArgs.category args)
    then ProductsArgs.category args else None.
Proof.
  unfold products_filter.
  destruct (JS.truthy_string (ProductsArgs.category args));
    destruct (JS.truthy_string (ProductsArgs.brand args));
    destruct (JS.truthy_number (ProductsArgs.minPrice args)
              || JS.truthy_number (ProductsArgs.maxPrice args));
    reflexivity.
Qed.

Lemma filter_brand (args : ProductsArgs.t) :
  Product.f_brand (products_filter args)
  = if JS.truthy_string (ProductsArgs.brand args)
    then ProductsArgs.brand args else None.
Proof.
  unfold products_filter.
  destruct (JS.truthy_string (ProductsArgs.category args));
    destruct (JS.truthy_string (ProductsArgs.brand args));
    destruct (JS.truthy_number (ProductsArgs.minPrice args)
              || JS.truthy_number (ProductsArgs.maxPrice args));
    reflexivity.
Qed.

Lemma filter_price (args : ProductsArgs.t) :
  Product.f_price (products_filter args)
  = match in_force (ProductsArgs.minPrice args),
          in_force (ProductsArgs.maxPrice args) with
    | None, None => None
    | lo, hi => Some {| Product.gte := lo; Product.lte := hi |}
    end.
Proof.
  unfold products_filter.
  rewrite !in_force_truthy, !truthy_in_force.
  destruct (JS.truthy_string (ProductsArgs.category args));
    destruct (JS.truthy_string (ProductsArgs.brand args));
    destruct (in_force (ProductsArgs.minPrice args));
    destruct (in_force (ProductsArgs.maxPrice args));
    reflexivity.
Qed.

Lemma eq_cond_label (x v : option string) :
  Store.eq_cond (if JS.truthy_string x then x else None) v = true
  <-> (JS.truthy_string x = true -> v = x).
Proof.
  destruct (JS.truthy_string x) eqn:Htruthy.
  - destruct x as [c |]; [| discriminate]. cbn.
    destruct v as [y |].
    + rewrite String.eqb_eq. split.
      * intros -> _. reflexivity.
      * intros Heq. specialize (Heq eq_refl). congruence.
    + split; [discriminate |]. intros Heq. specialize (Heq eq_refl).
      discriminate.
  - cbn. split; [discriminate | reflexivity].
Qed.

Lemma price_cond_within (lo hi : option Q) (p : Product.t) :
  lo <> None \/ hi <> None ->
  (Store.price_cond (Some {| Product.gte := lo; Product.lte := hi |})
     (Product.price p) = true
   <-> price_within lo hi p).
Proof.
  intros Hforce. unfold Store.price_cond, price_within. cbn.
  destruct (Product.price p) as [x |].
  - assert (Hbool :
      (match lo with Some a => Qle_bool a x | None => true end
       && match hi with Some b => Qle_bool x b | None => true end = true)
      <-> ((forall a, lo = Some a -> (a <= x)%Q)
           /\ (forall b, hi = Some b -> (x <= b)%Q))).
    { rewrite andb_true_iff.
      destruct lo as [a |], hi as [b |]; rewrite ?Qle_bool_iff;
        split; intros [H1 H2]; split; try reflexivity; try discriminate;
        try (intros c Hc; injection Hc as <-; assumption);
        try (apply H1; reflexivity); try (apply H2; reflexivity). }
    destruct lo as [a |], hi as [b |];
      try (destruct Hforce as [Hf | Hf]; exfalso; apply Hf; reflexivity);
      (rewrite Hbool; split;
       [ intros Hb; exists x; split; [reflexivity | exact Hb]
       | intros [y [Hy Hb]]; injection Hy as <-; exact Hb ]).
  - assert (Hno : ~ exists x : Q, None = Some x /\
                    (forall a, lo = Some a -> (a <= x)%Q) /\
                    (forall b, hi = Some b -> (x <= b)%Q)).
    { intros [y [Hy _]]. discriminate. }
    destruct lo as [a |], hi as [b |]; split; intro Hc;
      try discriminate; try contradiction.
Qed.

Lemma matches_products_filter (args : ProductsArgs.t) (p : Product.t) :
  in_force (ProductsArgs.minPrice args) <> None
  \/ in_force (ProductsArgs.maxPrice args) <> None ->
  (Store.matches (products_filter args) p = true
   <-> labels_match args p
       /\ price_within (in_force (ProductsArgs.minPrice args))
                       (in_force (ProductsArgs.maxPrice args)) p).
Proof.
  intros Hforce. unfold Store.matches, labels_match.
  rewrite filter_category, filter_brand, filter_price.
  rewrite !andb_true_iff, !eq_cond_label.
  rewrite <- (price_cond_within _ _ p Hforce).
  destruct (in_force (ProductsArgs.minPrice args)),
           (in_force (ProductsArgs.maxPrice args)); tauto.
Qed.

Lemma query_filter (args : ProductsArgs.t) :
  Product.q_filter (products_query args) = products_filter args.
Proof.
  unfold products_query.
  destruct (JS.truthy_string (ProductsArgs.sortBy args));
    destruct (JS.truthy_int (ProductsArgs.skip args));
    destruct (JS.truthy_int (ProductsArgs.limit args)); reflexivity.
Qed.

Lemma query_skip (args : ProductsArgs.t) :
  Product.q_skip (products_query args)
  = if JS.truthy_int (ProductsArgs.skip args)
    then ProductsArgs.skip args else None.
Proof.
  unfold products_query.
  destruct (JS.truthy_string (ProductsArgs.sortBy args));
    destruct (JS.truthy_int (ProductsArgs.skip args));
    destruct (JS.truthy_int (ProductsArgs.limit args)); reflexivity.
Qed.

Lemma query_limit (args : ProductsArgs.t) :
  Product.q_limit (products_query args)
  = if JS.truthy_int (ProductsArgs.limit args)
    then ProductsArgs.limit args else None.
Proof.
  unfold products_query.
  destruct (JS.truthy_string (ProductsArgs.sortBy args));
    destruct (JS.truthy_int (ProductsArgs.skip args));
    destruct (JS.truthy_int (ProductsArgs.limit args)); reflexivity.
Qed.

Lemma query_sort (args : ProductsArgs.t) :
  Product.q_sort (products_query args)
  = if JS.truthy_string (ProductsArgs.sortBy args)
    then ProductsArgs.sortBy args else None.
Proof.
  unfold products_query.
  destruct (JS.truthy_string (ProductsArgs.sortBy args));
    destruct (JS.truthy_int (ProductsArgs.skip args));
    destruct (JS.truthy_int (ProductsArgs.limit args)); reflexivity.
Qed.

(** ** The price range of [products] *)

(** C3 (as stated, refuted): minPrice = 5 and maxPrice = 0 are both
    supplied and minPrice > maxPrice, yet the result is not empty: the zero
    bound is dropped and every product priced 5 or more is returned, none
    of them within [5, 0]. *)
Lemma inverted_range_with_zero_bound :
  products (ext := Sample.externals)
    (ProductsArgs.with_maxPrice (Some 0%Q)
       (ProductsArgs.with_minPrice (Some 5%Q) ProductsArgs.none))
    Catalog.world
  = (Ok [Catalog.lamp; Catalog.desk; Catalog.rug], Catalog.world)
  /\ Product.price Catalog.lamp = Some 7%Q
  /\ ~ (7 <= 0)%Q.
Proof.
  split; [reflexivity |]. split; [reflexivity |].
  intros Hle. vm_compute in Hle. apply Hle. reflexivity.
Qed.

(** C3 (amended): a price bound is in force when it is supplied and not
    zero.  With at least one bound in force, every product [products]
    returns is a stored product whose price satisfies the bounds in force
    (the closed interval when both are, the single inclusive bound when one
    is); a query without skip and limit returns exactly the stored products
    that satisfy them and the category and brand given; and when both are
    in force with minPrice > maxPrice the query goes to the store as it is
    and, if the store accepts it (skip not negative), the result is the
    empty list, not a failure.  The store's sort is assumed to permute. *)
Theorem products_price_range {ext : Externals} (args : ProductsArgs.t)
  (w : World) (lo hi : option Q) :
  sort_permutes ->
  lo = in_force (ProductsArgs.minPrice args) ->
  hi = in_force (ProductsArgs.maxPrice args) ->
  lo <> None \/ hi <> None ->
  (forall found p,
     fst (products args w) = Ok found -> In p found ->
     In p (Products w) /\ price_within lo hi p)
  /\ (unpaginated args ->
      exists found,
        products args w = (Ok found, w)
        /\ forall p, In p found
                     <-> In p (Products w) /\ labels_match args p
                         /\ price_within lo hi p)
  /\ (forall a b, lo = Some a -> hi = Some b -> (b < a)%Q ->
      skip_accepted args ->
      products args w = (Ok [], w)).
Proof.
  intros Hsort -> -> Hforce. unfold products. cbn [fst].
  split; [| split].
  - intros found p Hexec Hin.
    destruct (exec_sound _ _ _ p Hsort Hexec Hin) as [Hstored Hmatch].
    rewrite query_filter in Hmatch.
    apply (matches_products_filter args p Hforce) in Hmatch. tauto.
  - intros [Hskip Hlimit].
    destruct (exec_complete (products_query args) (Products w) Hsort)
      as [found [Hexec Hiff]].
    + rewrite query_skip, Hskip. reflexivity.
    + rewrite query_limit, Hlimit. reflexivity.
    + exists found. rewrite Hexec. split; [reflexivity |].
      intros p. rewrite (Hiff p), query_filter.
      rewrite (matches_products_filter args p Hforce). tauto.
  - intros a b Ha Hb Hlt Hskip. f_equal.
    apply (exec_nothing _ _ Hsort).
    + intros n. rewrite query_skip.
      destruct (JS.truthy_int (ProductsArgs.skip args)); [| discriminate].
      apply Hskip.
    + intros p _. rewrite query_filter.
      destruct (Store.matches (products_filter args) p) eqn:Hmatch;
        [| reflexivity].
      apply (matches_products_filter args p Hforce) in Hmatch.
      destruct Hmatch as [_ [x [_ [Hlo Hhi]]]].
      specialize (Hlo a Ha). specialize (Hhi b Hb).
      exfalso. apply (Qlt_not_le _ _ Hlt). apply (Qle_trans _ x); assumption.
Qed.

Lemma Sample_insert_permutes (p : Product.t) (docs : list Product.t) :
  Permutation (p :: docs) (Sample.insert_by_price p docs).
Proof.
  induction docs as [| q docs IH]; cbn; [apply Permutation_refl |].
  destruct (Sample.price_le p q); [apply Permutation_refl |].
  apply (perm_trans (perm_swap q p docs)). apply perm_skip. exact IH.
Qed.

Lemma Sample_sort_permutes : sort_permutes (ext := Sample.externals).
Proof.
  intros spec docs. cbn. unfold Sample.sort.
  destruct (spec =? "price"); [| apply Permutation_refl].
  induction docs as [| p docs IH]; cbn; [apply perm_nil |].
  apply (perm_trans (perm_skip p IH)). apply Sample_insert_permutes.
Qed.

Lemma products_price_range_witness :
  products (ext := Sample.externals)
    (ProductsArgs.with_maxPrice (Some 5%Q)
       (ProductsArgs.with_minPrice (Some 10%Q) ProductsArgs.none))
    Catalog.world
  = (Ok [], Catalog.world).
Proof.
  refine (proj2 (proj2 (products_price_range (ext := Sample.externals)
                          _ Catalog.world (Some 10%Q) (Some 5%Q)
                          Sample_sort_permutes _ _ _))
            10%Q 5%Q _ _ _ _).
  - reflexivity.
  - reflexivity.
  - left. discriminate.
  - reflexivity.
  - reflexivity.
  - reflexivity.
  - intros n Hn. discriminate Hn.
Defined.

(** ** Category filter and pagination *)

Lemma truthy_nonempty (c : string) :
  c <> "" -> JS.truthy_string (Some c) = true.
Proof.
  intros Hc. cbn. destruct (String.eqb_spec c ""); [contradiction | reflexivity].
Qed.

(** C9: products(category = X), for a category X that is not the empty
    string, returns exactly the stored products whose category is X,
    whatever their other fields; and products(skip = 2, limit = 3), under
    any filter and sort, returns exactly the third, fourth and fifth of the
    products that the same query without skip and limit returns, when
    there are at least five. *)
Theorem products_category_and_page {ext : Externals} (w : World) :
  (forall X, X <> "" ->
     products (ProductsArgs.with_category (Some X) ProductsArgs.none) w
     = (Ok (List.filter (has_category X) (Products w)), w)
     /\ forall p, In p (List.filter (has_category X) (Products w))
                  <-> In p (Products w) /\ Product.category p = Some X)
  /\ (forall args x1 x2 x3 x4 x5 rest,
        products (ProductsArgs.with_skip None
                    (ProductsArgs.with_limit None args)) w
        = (Ok (x1 :: x2 :: x3 :: x4 :: x5 :: rest), w) ->
        products (ProductsArgs.with_skip (Some 2%Z)
                    (ProductsArgs.with_limit (Some 3%Z) args)) w
        = (Ok [x3; x4; x5], w)).
Proof.
  split.
  - intros X HX. split.
    + unfold products, products_query, products_filter.
      cbn [ProductsArgs.category ProductsArgs.brand ProductsArgs.minPrice
           ProductsArgs.maxPrice ProductsArgs.sortBy ProductsArgs.skip
           ProductsArgs.limit ProductsArgs.with_category ProductsArgs.none].
      rewrite (truthy_nonempty X HX). cbn. f_equal. f_equal.
      apply filter_ext. intros p. unfold Store.matches, has_category. cbn.
      rewrite !andb_true_r. reflexivity.
    + intros p. rewrite filter_In. unfold has_category. cbn.
      destruct (Product.category p) as [c |].
      * rewrite String.eqb_eq. split; intros [Hin Hc]; split; congruence.
      * split; intros [Hin Hc]; discriminate.
  - intros args x1 x2 x3 x4 x5 rest. unfold products, Store.exec.
    rewrite !query_skip, !query_limit, !query_sort, !query_filter.
    cbn [ProductsArgs.skip ProductsArgs.limit ProductsArgs.sortBy
         ProductsArgs.with_skip ProductsArgs.with_limit
         JS.truthy_int Store.apply_limit].
    change (products_filter
              (ProductsArgs.with_skip (Some 2%Z)
                 (ProductsArgs.with_limit (Some 3%Z) args)))
      with (products_filter args).
    change (products_filter
              (ProductsArgs.with_skip None (ProductsArgs.with_limit None args)))
      with (products_filter args).
    intros Hall. injection Hall as Hall. cbn. rewrite Hall. reflexivity.
Qed.

Lemma products_category_and_page_witness :
  products (ext := Sample.externals)
    (ProductsArgs.with_category (Some "X") ProductsArgs.none) Catalog.world
  = (Ok [Catalog.mug; Catalog.cup], Catalog.world)
  /\ products (ext := Sample.externals)
       (ProductsArgs.with_skip (Some 2%Z)
          (ProductsArgs.with_limit (Some 3%Z) Catalog.by_price))
       Catalog.world
     = (Ok [Catalog.pen; Catalog.lamp; Catalog.desk], Catalog.world).
Proof.
  destruct (products_category_and_page (ext := Sample.externals) Catalog.world)
    as [Hcat Hpage].
  split.
  - refine (proj1 (Hcat "X" _)). discriminate.
  - refine (Hpage Catalog.by_price Catalog.cup Catalog.mug _ _ _ [Catalog.rug] _).
    reflexivity.
Defined.

(** ** Arguments that are falsy *)

Lemma zero_minPrice_is_absent (q : Q) (args : ProductsArgs.t) :
  (q == 0)%Q ->
  products_query (ProductsArgs.with_minPrice (Some q) args)
  = products_query (ProductsArgs.with_minPrice None args).
Proof.
  intros Hq. apply Qeq_bool_iff in Hq.
  unfold products_query, products_filter. cbn. rewrite Hq. reflexivity.
Qed.

Lemma zero_maxPrice_is_absent (q : Q) (args : ProductsArgs.t) :
  (q == 0)%Q ->
  products_query (ProductsArgs.with_maxPrice (Some q) args)
  = products_query (ProductsArgs.with_maxPrice None args).
Proof.
  intros Hq. apply Qeq_bool_iff in Hq.
  unfold products_query, products_filter. cbn. rewrite Hq. reflexivity.
Qed.

(** C10: presence of an argument of products is its truthiness: an empty
    category or brand, and a zero minPrice, maxPrice, skip or limit, give
    the same query, hence the same result, as the argument left out. *)
Theorem falsy_arguments_are_absent {ext : Externals} (args : ProductsArgs.t)
  (w : World) :
  products (ProductsArgs.with_category (Some "") args) w
  = products (ProductsArgs.with_category None args) w
  /\ products (ProductsArgs.with_brand (Some "") args) w
     = products (ProductsArgs.with_brand None args) w
  /\ products (ProductsArgs.with_minPrice (Some 0%Q) args) w
     = products (ProductsArgs.with_minPrice None args) w
  /\ products (ProductsArgs.with_maxPrice (Some 0%Q) args) w
     = products (ProductsArgs.with_maxPrice None args) w
  /\ products (ProductsArgs.with_skip (Some 0%Z) args) w
     = products (ProductsArgs.with_skip None args) w
  /\ products (ProductsArgs.with_limit (Some 0%Z) args) w
     = products (ProductsArgs.with_limit None args) w
  /\ products_query (ProductsArgs.with_category (Some "") args)
     = products_query (ProductsArgs.with_category None args)
  /\ products_query (ProductsArgs.with_skip (Some 0%Z) args)
     = products_query (ProductsArgs.with_skip None args).
Proof.
  unfold products. repeat split; reflexivity.
Qed.

(** ** Lifetime of a token *)

(** A token presented a day or more after it was issued is rejected. *)
Lemma token_expires {ext : Externals} (uid : ObjectId) (admin : bool)
  (now later : Z) :
  jws_correct ->
  (now / 1000 + one_day <= later / 1000)%Z ->
  jwt_verify (jwt_sign uid admin JWT_SECRET one_day now) JWT_SECRET later
  = Throw TokenExpiredError.
Proof.
  intros Hjws Hlate. unfold jwt_verify, jwt_sign. rewrite Hjws. cbn [exp].
  apply Z.leb_le in Hlate. rewrite Hlate. reflexivity.
Qed.

(** * Further properties of the resolvers *)

(** ** Splitting the authorization header *)

Lemma split_not_nil (sep : ascii) (s : string) : JS.split sep s <> [].
Proof.
  destruct s as [| c s]; cbn; [discriminate |].
  destruct (Ascii.eqb c sep); [discriminate |].
  destruct (JS.split sep s); discriminate.
Qed.

Lemma join_cons (sep : ascii) (w x : string) (xs : list string) :
  join sep (w :: x :: xs) = (w ++ String sep (join sep (x :: xs)))%string.
Proof. reflexivity. Qed.

(** X1: [s.split(sep)] loses nothing: joining the pieces with the separator
    gives [s] back, and there is one piece more than there are separators
    in [s] (so never fewer than one). *)
Theorem split_join_roundtrip (sep : ascii) (s : string) :
  join sep (JS.split sep s) = s
  /\ List.length (JS.split sep s) = S (occurrences sep s).
Proof.
  induction s as [| c s [IHjoin IHlen]]; [split; reflexivity |].
  cbn [JS.split occurrences].
  destruct (Ascii.eqb_spec c sep) as [-> | Hne].
  - split.
    + destruct (JS.split sep s) as [| x xs] eqn:Hs;
        [exfalso; exact (split_not_nil sep s Hs) |].
      rewrite join_cons, IHjoin. reflexivity.
    + cbn [List.length]. rewrite IHlen. reflexivity.
  - destruct (JS.split sep s) as [| w ws] eqn:Hs;
      [exfalso; exact (split_not_nil sep s Hs) |].
    split.
    + destruct ws as [| x xs].
      * cbn in IHjoin. cbn. rewrite IHjoin. reflexivity.
      * rewrite join_cons in IHjoin. rewrite join_cons. cbn [append].
        rewrite IHjoin. reflexivity.
    + cbn [List.length] in *. rewrite IHlen. reflexivity.
Qed.

Lemma split_no_space (s : string) :
  no_space s = true -> JS.split " " s = [s].
Proof.
  induction s as [| c s IH]; [reflexivity |].
  cbn [no_space JS.split]. intros Hs. apply andb_true_iff in Hs.
  destruct Hs as [Hc Hs]. apply negb_true_iff in Hc. rewrite Hc.
  rewrite (IH Hs). reflexivity.
Qed.

Lemma split_first_word (a b : string) :
  no_space a = true ->
  JS.split " " (a ++ String " " b)%string = a :: JS.split " " b.
Proof.
  induction a as [| c a IH]; [reflexivity |].
  cbn [no_space append JS.split]. intros Ha. apply andb_true_iff in Ha.
  destruct Ha as [Hc Ha]. apply negb_true_iff in Hc. rewrite Hc.
  rewrite (IH Ha). reflexivity.
Qed.

Lemma header_truthy (a b : string) :
  JS.or_string (Some (a ++ String " " b)%string) "" = (a ++ String " " b)%string.
Proof.
  cbn. destruct a; reflexivity.
Qed.

Lemma context_by_token {ext : Externals} (r1 r2 : Request) (now : Z) :
  presented_token r1 = presented_token r2 ->
  context r1 now = context r2 now.
Proof.
  unfold presented_token, context. intros Heq. rewrite Heq. reflexivity.
Qed.

Lemma second_word (scheme tok : string) :
  no_space scheme = true ->
  no_space tok = true ->
  presented_token {| authorization := Some (scheme ++ String " " tok)%string |}
  = Some tok
  /\ forall rest,
       presented_token
         {| authorization := Some (scheme ++ String " " (tok ++ String " " rest))%string |}
       = Some tok.
Proof.
  intros Hs Ht. unfold presented_token. cbn [authorization]. split.
  - rewrite header_truthy, (split_first_word _ _ Hs), (split_no_space _ Ht).
    reflexivity.
  - intros rest.
    rewrite header_truthy, (split_first_word _ _ Hs), (split_first_word _ _ Ht).
    reflexivity.
Qed.

(** X2: the context takes the second space-separated word of the
    authorization header as the token and never looks at the first: any
    scheme word in place of "Bearer", and any further words after the
    token, give the same context. *)
Theorem scheme_is_not_checked {ext : Externals} (scheme tok : string) (now : Z) :
  no_space scheme = true ->
  no_space tok = true ->
  context {| authorization := Some (scheme ++ String " " tok)%string |} now
  = context {| authorization := Some ("Bearer" ++ String " " tok)%string |} now
  /\ forall rest,
       context
         {| authorization := Some (scheme ++ String " " (tok ++ String " " rest))%string |}
         now
       = context {| authorization := Some ("Bearer" ++ String " " tok)%string |} now.
Proof.
  intros Hs Ht.
  destruct (second_word scheme tok Hs Ht) as [H1 H2].
  destruct (second_word "Bearer" tok eq_refl Ht) as [B1 _].
  split.
  - apply context_by_token. rewrite H1, B1. reflexivity.
  - intros rest. apply context_by_token. rewrite H2, B1. reflexivity.
Qed.

Lemma scheme_is_not_checked_witness :
  context (ext := Sample.externals)
    {| authorization := Some "Basic p111.fp.p1010110.s3cret" |} 5000%Z
  = context (ext := Sample.externals)
      {| authorization := Some "Bearer p111.fp.p1010110.s3cret" |} 5000%Z.
Proof.
  exact (proj1 (scheme_is_not_checked (ext := Sample.externals)
                  "Basic" "p111.fp.p1010110.s3cret" 5000%Z eq_refl eq_refl)).
Defined.

(** X3: without a second word there is no credential: when the header is
    absent, holds no space (a bare token without scheme, valid or not), or
    has two spaces after the scheme, the user is [null], jwt.verify is not
    consulted and nothing is written to the console. *)
Theorem credential_needs_second_word {ext : Externals} (req : Request) (now : Z) :
  authorization req = None
  \/ (exists h, authorization req = Some h /\ no_space h = true)
  \/ (exists scheme rest,
        no_space scheme = true
        /\ authorization req
           = Some (scheme ++ String " " (String " " rest))%string) ->
  context req now = ({| user := None |}, []).
Proof.
  intros [Hnone | [[h [Hh Hs]] | [scheme [rest [Hs Hh]]]]];
    unfold context; rewrite ?Hnone, ?Hh.
  - reflexivity.
  - assert (Hsplit : JS.split " " (JS.or_string (Some h) "") = [h]).
    { destruct h as [| c h]; [reflexivity |]. exact (split_no_space _ Hs). }
    rewrite Hsplit. reflexivity.
  - rewrite header_truthy, (split_first_word _ _ Hs). reflexivity.
Qed.

Lemma credential_needs_second_word_witness :
  context (ext := Sample.externals)
    {| authorization := Some "p111.fp.p1010110.s3cret" |} 5000%Z
  = ({| user := None |}, [])
  /\ jwt_verify (ext := Sample.externals) "p111.fp.p1010110.s3cret" "s3cret"
       5000%Z
     = Ok {| id := 15%N; isAdmin := false; iat := 1%Z; exp := 181%Z |}.
Proof.
  split; [| reflexivity].
  apply (credential_needs_second_word (ext := Sample.externals)).
  right. left. eexists. split; reflexivity.
Defined.

(** ** Well-formed worlds *)

Lemma NoDup_map_app_fresh {A B} (f : A -> B) (l : list A) (x : A) :
  NoDup (map f l) -> ~ In (f x) (map f l) -> NoDup (map f (l ++ [x])).
Proof.
  intros Hnd Hfresh. rewrite map_app. cbn.
  apply NoDup_app; [exact Hnd | repeat constructor; intros [] | ].
  intros b Hb [<- | []]. exact (Hfresh Hb).
Qed.

Lemma map_id_replace_first (test : Product.t -> bool)
  (f : Product.t -> Product.t) (coll : list Product.t) :
  (forall p, Product._id (f p) = Product._id p) ->
  map Product._id (Store.replace_first test f coll) = map Product._id coll.
Proof.
  intros Hf. induction coll as [| p coll IH]; [reflexivity |]. cbn.
  destruct (test p); cbn; [rewrite Hf | rewrite IH]; reflexivity.
Qed.

Lemma In_replace_first (test : Product.t -> bool)
  (f : Product.t -> Product.t) (coll : list Product.t) (q : Product.t) :
  In q (Store.replace_first test f coll) ->
  In q coll \/ exists p, In p coll /\ q = f p.
Proof.
  induction coll as [| p coll IH]; cbn; [tauto |].
  destruct (test p); cbn.
  - intros [<- | Hin]; [right; exists p; tauto | tauto].
  - intros [<- | Hin]; [tauto |].
    destruct (IH Hin) as [H | [p' [H1 H2]]]; [tauto |].
    right. exists p'. tauto.
Qed.

Lemma In_remove_first (test : Product.t -> bool) (coll : list Product.t)
  (q : Product.t) :
  In q (Store.remove_first test coll) -> In q coll.
Proof.
  induction coll as [| p coll IH]; cbn; [tauto |].
  destruct (test p); cbn; [tauto |]. intros [<- | Hin]; tauto.
Qed.

Lemma NoDup_remove_first (test : Product.t -> bool) (coll : list Product.t) :
  NoDup (map Product._id coll) ->
  NoDup (map Product._id (Store.remove_first test coll)).
Proof.
  induction coll as [| p coll IH]; cbn; [trivial |].
  intros Hnd. inversion Hnd as [| ? ? Hnotin Hrest]; subst.
  destruct (test p); [exact Hrest |]. cbn. constructor; [| exact (IH Hrest)].
  intros Hin. apply Hnotin. apply in_map_iff in Hin.
  destruct Hin as [q [Hq Hin]]. apply In_remove_first in Hin.
  rewrite <- Hq. apply in_map. exact Hin.
Qed.

Lemma apply_update_id (args : UpdateProductArgs.t) (p : Product.t) :
  Product._id (apply_update args p) = Product._id p.
Proof. reflexivity. Qed.

Lemma findOne_None_map (u : string) (us : list User.t) :
  User.findOne u us = None -> ~ In u (map User.username us).
Proof.
  unfold User.findOne. intros Hnone Hin. apply in_map_iff in Hin.
  destruct Hin as [x [Hx Hin]].
  pose proof (find_none _ _ Hnone x Hin) as Hno. cbv beta in Hno.
  rewrite Hx, String.eqb_refl in Hno. discriminate.
Qed.

Lemma fresh_not_in {A} (f : A -> N) (l : list A) (n : N) :
  (forall x, In x l -> (f x < n)%N) -> ~ In n (map f l).
Proof.
  intros Hbelow Hin. apply in_map_iff in Hin. destruct Hin as [x [Hx Hin]].
  specialize (Hbelow x Hin). lia.
Qed.

Lemma well_formed_registered {ext : Externals} (u p : string) (a : option bool)
  (w : World) :
  well_formed w ->
  User.findOne u (Users w) = None ->
  well_formed (registered u p a w).
Proof.
  intros [[Hps Hus] [Hpid [Huid Hname]]] Hfree.
  unfold well_formed, ids_below, registered. cbn [Products Users nextOid].
  repeat split.
  - intros q Hq. specialize (Hps q Hq). lia.
  - intros x Hx. apply in_app_or in Hx. destruct Hx as [Hx | [<- | []]].
    + specialize (Hus x Hx). lia.
    + cbn. lia.
  - exact Hpid.
  - apply NoDup_map_app_fresh; [exact Huid |]. cbn.
    apply fresh_not_in. exact Hus.
  - apply NoDup_map_app_fresh; [exact Hname |]. cbn.
    apply findOne_None_map. exact Hfree.
Qed.

Lemma well_formed_register {ext : Externals} (u p : string) (a : option bool)
  (w : World) :
  well_formed w -> well_formed (snd (register u p a w)).
Proof.
  intros Hw. destruct (User.findOne u (Users w)) as [x |] eqn:Hfind.
  - rewrite (register_taken u p a w x Hfind). exact Hw.
  - rewrite (register_fresh u p a w Hfind).
    apply well_formed_registered; assumption.
Qed.

Lemma well_formed_addProduct (args : AddProductArgs.t) (ctx : Context)
  (w : World) :
  well_formed w -> well_formed (snd (addProduct args ctx w)).
Proof.
  intros Hw. unfold addProduct.
  destruct (not_admin (user ctx)); [exact Hw |].
  destruct Hw as [[Hps Hus] [Hpid [Huid Hname]]].
  unfold well_formed, ids_below. cbn. repeat split.
  - intros q Hq. apply in_app_or in Hq. destruct Hq as [Hq | [<- | []]].
    + specialize (Hps q Hq). lia.
    + cbn. lia.
  - intros x Hx. specialize (Hus x Hx). lia.
  - apply NoDup_map_app_fresh; [exact Hpid |]. cbn.
    apply fresh_not_in. exact Hps.
  - exact Huid.
  - exact Hname.
Qed.

Lemma well_formed_updateProduct {ext : Externals} (args : UpdateProductArgs.t)
  (ctx : Context) (w : World) :
  well_formed w -> well_formed (snd (updateProduct args ctx w)).
Proof.
  intros Hw.
  unfold updateProduct, Product_findByIdAndUpdate.
  destruct (not_admin (user ctx)); [exact Hw |].
  destruct (cast_ObjectId (UpdateProductArgs.id args)) as [oid |];
    [| exact Hw].
  unfold bind, gets, modify, ret, throw.
  destruct (Store.findById _ (Products w)); [| exact Hw].
  destruct Hw as [[Hps Hus] [Hpid [Huid Hname]]].
  unfold well_formed, ids_below. cbn. repeat split; trivial.
  - intros q Hq. apply In_replace_first in Hq.
    destruct Hq as [Hq | [q' [Hq' ->]]]; [exact (Hps q Hq) |].
    rewrite apply_update_id. exact (Hps q' Hq').
  - rewrite (map_id_replace_first _ _ _ (apply_update_id args)). exact Hpid.
Qed.

Lemma well_formed_deleteProduct {ext : Externals} (pid : string)
  (ctx : Context) (w : World) :
  well_formed w -> well_formed (snd (deleteProduct pid ctx w)).
Proof.
  intros Hw.
  unfold deleteProduct, Product_findByIdAndDelete.
  destruct (not_admin (user ctx)); [exact Hw |].
  destruct (cast_ObjectId pid) as [oid |]; [| exact Hw].
  unfold bind, gets, modify, ret, throw.
  destruct (Store.findById _ (Products w)); [| exact Hw].
  destruct Hw as [[Hps Hus] [Hpid [Huid Hname]]].
  unfold well_formed, ids_below. cbn. repeat split; trivial.
  - intros q Hq. apply In_remove_first in Hq. exact (Hps q Hq).
  - apply NoDup_remove_first. exact Hpid.
Qed.

Lemma well_formed_serve {ext : Externals} (req : Request) (now : Z)
  (op : Operation) (w : World) :
  well_formed w -> well_formed (serve req now op w).
Proof.
  intros Hw. destruct op as [| args | u p a | u p | args | args | pid];
    cbn [serve].
  - rewrite me_world. exact Hw.
  - exact Hw.
  - apply well_formed_register. exact Hw.
  - rewrite login_world. exact Hw.
  - apply well_formed_addProduct. exact Hw.
  - apply well_formed_updateProduct. exact Hw.
  - apply well_formed_deleteProduct. exact Hw.
Qed.

(** X4: the resolvers keep the collections well formed: starting from a
    world where no two products and no two users share an [_id], no two
    users share a username and every [_id] was drawn from the generator,
    the world after any sequence of requests is so again. *)
Theorem serve_all_well_formed {ext : Externals}
  (reqs : list (Request * Z * Operation)) (w : World) :
  well_formed w -> well_formed (serve_all reqs w).
Proof.
  revert w. induction reqs as [| [[req now] op] rest IH]; intros w Hw.
  - exact Hw.
  - cbn [serve_all]. apply IH. apply well_formed_serve. exact Hw.
Qed.

Lemma well_formed_empty : well_formed Catalog.empty.
Proof.
  unfold well_formed, ids_below. cbn.
  repeat split; try (intros ? []); constructor.
Qed.

Lemma well_formed_catalog : well_formed Catalog.world.
Proof.
  unfold well_formed, ids_below. cbn. repeat split.
  - intros p Hp.
    repeat (destruct Hp as [<- | Hp]; [reflexivity |]). destruct Hp.
  - intros u [<- | []]. reflexivity.
  - repeat constructor; cbn; intuition discriminate.
  - repeat constructor; cbn; intuition discriminate.
  - repeat constructor; cbn; intuition discriminate.
Qed.

Lemma serve_all_well_formed_witness :
  well_formed
    (serve_all (ext := Sample.externals)
       [({| authorization := None |}, 1000%Z, OpRegister "root" "pw" (Some true));
        ({| authorization := None |}, 2000%Z, OpRegister "root" "pw2" None);
        ({| authorization := None |}, 3000%Z,
         OpDeleteProduct "000000000000000000000001")]
       Catalog.empty).
Proof.
  exact (serve_all_well_formed (ext := Sample.externals) _ Catalog.empty
           well_formed_empty).
Defined.

(** ** Users are append-only *)

Lemma register_appends {ext : Externals} (u p : string) (a : option bool)
  (w : World) :
  exists added, Users (snd (register u p a w)) = Users w ++ added.
Proof.
  destruct (User.findOne u (Users w)) as [x |] eqn:Hfind.
  - rewrite (register_taken u p a w x Hfind). exists []. cbn.
    rewrite app_nil_r. reflexivity.
  - rewrite (register_fresh u p a w Hfind). eexists. reflexivity.
Qed.

Lemma serve_appends {ext : Externals} (req : Request) (now : Z)
  (op : Operation) (w : World) :
  exists added, Users (serve req now op w) = Users w ++ added.
Proof.
  destruct op as [| args | u p a | u p | args | args | pid]; cbn [serve];
    try apply register_appends;
    exists []; rewrite app_nil_r.
  - rewrite me_world. reflexivity.
  - reflexivity.
  - rewrite login_world. reflexivity.
  - apply addProduct_Users.
  - apply updateProduct_Users.
  - apply deleteProduct_Users.
Qed.

(** X5: no request modifies or removes a stored user: after any sequence of
    requests the users collection is the former one followed by the users
    registered since, so every stored user keeps its id, username, password
    digest and isAdmin flag for ever. *)
Theorem users_append_only {ext : Externals}
  (reqs : list (Request * Z * Operation)) (w : World) :
  exists added, Users (serve_all reqs w) = Users w ++ added.
Proof.
  revert w. induction reqs as [| [[req now] op] rest IH]; intros w.
  - exists []. cbn. rewrite app_nil_r. reflexivity.
  - cbn [serve_all].
    destruct (IH (serve req now op w)) as [later Hlater].
    destruct (serve_appends req now op w) as [first Hfirst].
    exists (first ++ later). rewrite Hlater, Hfirst, app_assoc. reflexivity.
Qed.

(** ** A failed operation changes nothing *)

Lemma products_world {ext : Externals} (args : ProductsArgs.t) (w : World) :
  snd (products args w) = w.
Proof. reflexivity. Qed.

(** X6: when the response to a request is an error, the world is as it was
    before the request, generators included; and the error is one of the
    five the resolvers throw, the store's rejection of a query, or the
    CastError of an id that is not a well-formed ObjectId. *)
Theorem failure_leaves_world {ext : Externals} (req : Request) (now : Z)
  (op : Operation) (w : World) (e : Exn) :
  failure req now op w = Some e ->
  serve req now op w = w
  /\ In e [Unauthorized; Conflict; UserNotFound; InvalidCredentials;
           ProductNotFound; MongoServerError; CastError].
Proof.
  unfold failure.
  destruct op as [| args | u p a | u p | args | args | pid]; cbn [serve].
  - rewrite me_world. unfold me.
    destruct (user (fst (context req now))); cbn; [discriminate |].
    intros [= <-]. cbn. tauto.
  - unfold products. cbn [fst snd]. unfold Store.exec.
    destruct (Product.q_skip (products_query args)) as [n |];
      [destruct (n <? 0)%Z |]; cbn; try discriminate.
    intros [= <-]. cbn. tauto.
  - destruct (User.findOne u (Users w)) as [x |] eqn:Hfind.
    + rewrite (register_taken u p a w x Hfind). cbn.
      intros [= <-]. cbn. tauto.
    + rewrite (register_fresh u p a w Hfind). cbn. discriminate.
  - rewrite login_world. unfold login, bind, gets, throw, ret.
    destruct (User.findOne u (Users w)) as [x |]; cbn.
    + destruct (bcrypt_compare p (User.password x)); cbn; [discriminate |].
      intros [= <-]. cbn. tauto.
    + intros [= <-]. cbn. tauto.
  - unfold addProduct.
    destruct (not_admin (user (fst (context req now)))); cbn; [| discriminate].
    intros [= <-]. cbn. tauto.
  - unfold updateProduct, Product_findByIdAndUpdate.
    destruct (not_admin (user (fst (context req now)))); cbn.
    + intros [= <-]. cbn. tauto.
    + destruct (cast_ObjectId (UpdateProductArgs.id args)) as [oid |]; cbn.
      * unfold bind, gets, modify, ret, throw.
        destruct (Store.findById _ (Products w)); cbn; [discriminate |].
        intros [= <-]. cbn. tauto.
      * intros [= <-]. cbn. tauto.
  - unfold deleteProduct, Product_findByIdAndDelete.
    destruct (not_admin (user (fst (context req now)))); cbn.
    + intros [= <-]. cbn. tauto.
    + destruct (cast_ObjectId pid) as [oid |]; cbn.
      * unfold bind, gets, modify, ret, throw.
        destruct (Store.findById _ (Products w)); cbn; [discriminate |].
        intros [= <-]. cbn. tauto.
      * intros [= <-]. cbn. tauto.
Qed.

Lemma failure_leaves_world_witness :
  serve (ext := Sample.externals) {| authorization := None |} 1000%Z
    (OpRegister "alice" "other" (Some true)) Catalog.world
  = Catalog.world
  /\ serve (ext := Sample.externals)
       {| authorization := Some "Bearer p1001.tp.p1010110.s3cret" |} 5000%Z
       (OpDeleteProduct "42") Catalog.world
     = Catalog.world.
Proof.
  split.
  - exact (proj1 (failure_leaves_world (ext := Sample.externals)
                    {| authorization := None |} 1000%Z
                    (OpRegister "alice" "other" (Some true)) Catalog.world
                    Conflict eq_refl)).
  - exact (proj1 (failure_leaves_world (ext := Sample.externals)
                    {| authorization := Some "Bearer p1001.tp.p1010110.s3cret" |}
                    5000%Z (OpDeleteProduct "42") Catalog.world
                    CastError eq_refl)).
Defined.

(** ** Looking products up by id *)

Lemma findById_unique (q : Product.t) (coll : list Product.t) :
  NoDup (map Product._id coll) ->
  In q coll ->
  Store.findById (Product._id q) coll = Some q.
Proof.
  unfold Store.findById, Store.has_id.
  induction coll as [| p coll IH]; cbn; [tauto |].
  intros Hnd Hin. inversion Hnd as [| ? ? Hnotin Hrest]; subst.
  destruct (N.eqb_spec (Product._id p) (Product._id q)) as [Heq | Hne].
  - destruct Hin as [-> | Hin]; [reflexivity |].
    exfalso. apply Hnotin. rewrite Heq. apply in_map. exact Hin.
  - destruct Hin as [-> | Hin]; [contradiction |]. exact (IH Hrest Hin).
Qed.

Lemma findById_id (pid : ObjectId) (coll : list Product.t) (q : Product.t) :
  Store.findById pid coll = Some q -> In q coll /\ Product._id q = pid.
Proof.
  unfold Store.findById. intros Hfind. apply find_some in Hfind.
  destruct Hfind as [Hin Hid]. apply N.eqb_eq in Hid. tauto.
Qed.

Lemma findById_replace_first (pid : ObjectId) (f : Product.t -> Product.t)
  (coll : list Product.t) (q : Product.t) :
  (forall p, Product._id (f p) = Product._id p) ->
  Store.findById pid coll = Some q ->
  Store.findById pid (Store.replace_first (Store.has_id pid) f coll)
  = Some (f q).
Proof.
  intros Hf. unfold Store.findById.
  induction coll as [| p coll IH]; cbn; [discriminate |].
  destruct (Store.has_id pid p) eqn:Hp; cbn.
  - intros [= ->]. unfold Store.has_id in *. rewrite Hf, Hp. reflexivity.
  - rewrite Hp. exact IH.
Qed.

Lemma others_replace_first (pid : ObjectId) (f : Product.t -> Product.t)
  (coll : list Product.t) (p : Product.t) :
  In p coll -> Product._id p <> pid ->
  In p (Store.replace_first (Store.has_id pid) f coll).
Proof.
  intros Hin Hne. induction coll as [| d coll IH]; [destruct Hin |].
  cbn. destruct (Store.has_id pid d) eqn:Hd.
  - destruct Hin as [-> | Hin]; [| right; exact Hin].
    unfold Store.has_id in Hd. apply N.eqb_eq in Hd. contradiction.
  - destruct Hin as [-> | Hin]; [left; reflexivity | right; exact (IH Hin)].
Qed.

Lemma In_remove_first_iff (pid : ObjectId) (coll : list Product.t)
  (p : Product.t) :
  NoDup (map Product._id coll) ->
  (In p (Store.remove_first (Store.has_id pid) coll)
   <-> In p coll /\ Product._id p <> pid).
Proof.
  unfold Store.has_id.
  induction coll as [| d coll IH]; cbn; [tauto |].
  intros Hnd. inversion Hnd as [| ? ? Hnotin Hrest]; subst.
  destruct (N.eqb_spec (Product._id d) pid) as [Heq | Hne].
  - split.
    + intros Hin. split; [right; exact Hin |].
      intros Hp. apply Hnotin. rewrite Heq, <- Hp. apply in_map. exact Hin.
    + intros [[-> | Hin] Hp]; [contradiction | exact Hin].
  - cbn. rewrite (IH Hrest). split.
    + intros [<- | [Hin Hp]]; tauto.
    + intros [[<- | Hin] Hp]; tauto.
Qed.

Lemma length_remove_first (pid : ObjectId) (coll : list Product.t)
  (q : Product.t) :
  Store.findById pid coll = Some q ->
  S (List.length (Store.remove_first (Store.has_id pid) coll))
  = List.length coll.
Proof.
  unfold Store.findById.
  induction coll as [| d coll IH]; cbn; [discriminate |].
  destruct (Store.has_id pid d); [reflexivity |].
  intros Hfind. cbn. rewrite (IH Hfind). reflexivity.
Qed.

Lemma privileged_guard (ctx : Context) :
  privileged ctx -> not_admin (user ctx) = false.
Proof.
  intros [p [Hp Hadm]]. rewrite Hp, not_admin_flag, Hadm. reflexivity.
Qed.

Lemma filter_all (coll : list Product.t) :
  List.filter (Store.matches Product.empty_filter) coll = coll.
Proof.
  induction coll as [| p coll IH]; [reflexivity |]. cbn. rewrite IH.
  reflexivity.
Qed.

Lemma products_none {ext : Externals} (w : World) :
  products ProductsArgs.none w = (Ok (Products w), w).
Proof.
  unfold products, products_query, products_filter, Store.exec. cbn.
  rewrite filter_all. reflexivity.
Qed.

(** ** What an admin's mutations do to the catalog *)

(** X7: addProduct by an admin never fails: it stores and returns a product
    whose name, description, price, category, brand and rating are those of
    the arguments, under an [_id] that no stored product had; afterwards
    the product is found by that id and is the last of the products an
    unfiltered query lists; the users are untouched. *)
Theorem added_product_is_listed {ext : Externals} (args : AddProductArgs.t)
  (ctx : Context) (w : World) :
  privileged ctx ->
  well_formed w ->
  exists stored w',
    addProduct args ctx w = (Ok stored, w')
    /\ Product._id stored = nextOid w
    /\ Product.name stored = Some (AddProductArgs.name args)
    /\ Product.description stored = AddProductArgs.description args
    /\ Product.price stored = Some (AddProductArgs.price args)
    /\ Product.category stored = AddProductArgs.category args
    /\ Product.brand stored = AddProductArgs.brand args
    /\ Product.rating stored = AddProductArgs.rating args
    /\ ~ product_exists (nextOid w) w
    /\ Store.findById (nextOid w) (Products w') = Some stored
    /\ products ProductsArgs.none w' = (Ok (Products w ++ [stored]), w')
    /\ Users w' = Users w.
Proof.
  intros Hadm [[Hps _] _].
  unfold addProduct. rewrite (privileged_guard ctx Hadm).
  do 2 eexists. split; [reflexivity |].
  do 7 (split; [reflexivity |]).
  assert (Hnew : ~ product_exists (nextOid w) w).
  { intros [q [Hq Hid]]. specialize (Hps q Hq). lia. }
  split; [exact Hnew |]. split; [| split].
  - cbn [Products with_Products]. unfold Store.findById.
    rewrite (find_app_None _ _ _ (findById_None _ _ Hnew)). cbn.
    unfold Store.has_id. cbn. rewrite N.eqb_refl. reflexivity.
  - rewrite products_none. reflexivity.
  - reflexivity.
Qed.

Lemma added_product_is_listed_witness :
  exists stored w',
    addProduct widget Catalog.admin_identity Catalog.world = (Ok stored, w')
    /\ Product._id stored = 8%N
    /\ Product.name stored = Some "Widget"
    /\ Product.description stored = None
    /\ Product.price stored = Some (999 # 100)%Q
    /\ Product.category stored = None
    /\ Product.brand stored = None
    /\ Product.rating stored = None
    /\ ~ product_exists 8%N Catalog.world
    /\ Store.findById 8%N (Products w') = Some stored
    /\ products (ext := Sample.externals) ProductsArgs.none w'
       = (Ok (Products Catalog.world ++ [stored]), w')
    /\ Users w' = Users Catalog.world.
Proof.
  assert (Hadm : privileged Catalog.admin_identity).
  { eexists. split; reflexivity. }
  exact (added_product_is_listed (ext := Sample.externals) widget
           Catalog.admin_identity Catalog.world Hadm well_formed_catalog).
Defined.

Lemma set_path_updated {A} (given : option (option A)) (old : option A) :
  field_updated given old (set_path given old).
Proof.
  unfold field_updated. destruct given as [v |]; cbn; split.
  - discriminate.
  - intros v' [= ->]. reflexivity.
  - reflexivity.
  - discriminate.
Qed.

(** X8: updateProduct by an admin on a stored product (its id given in a
    form that casts) returns the updated product: the [_id] is kept, and
    each of name, description, price, category, brand and rating is the
    value given when the key is present in the arguments (null included)
    and the stored value otherwise; a lookup by the id finds the updated
    product afterwards; the ids stored and their order are the same, every
    product with another id is still stored, and the users are untouched. *)
Theorem updated_product_is_stored {ext : Externals} (args : UpdateProductArgs.t)
  (ctx : Context) (w : World) (q : Product.t) :
  privileged ctx ->
  well_formed w ->
  In q (Products w) ->
  cast_ObjectId (UpdateProductArgs.id args) = Some (Product._id q) ->
  exists updated w',
    updateProduct args ctx w = (Ok updated, w')
    /\ Product._id updated = Product._id q
    /\ field_updated (UpdateProductArgs.name args)
         (Product.name q) (Product.name updated)
    /\ field_updated (UpdateProductArgs.description args)
         (Product.description q) (Product.description updated)
    /\ field_updated (UpdateProductArgs.price args)
         (Product.price q) (Product.price updated)
    /\ field_updated (UpdateProductArgs.category args)
         (Product.category q) (Product.category updated)
    /\ field_updated (UpdateProductArgs.brand args)
         (Product.brand q) (Product.brand updated)
    /\ field_updated (UpdateProductArgs.rating args)
         (Product.rating q) (Product.rating updated)
    /\ Store.findById (Product._id q) (Products w') = Some updated
    /\ map Product._id (Products w') = map Product._id (Products w)
    /\ (forall p, In p (Products w) -> Product._id p <> Product._id q ->
                  In p (Products w'))
    /\ Users w' = Users w.
Proof.
  intros Hadm [_ [Hpid _]] Hin Hcast.
  pose proof (findById_unique q (Products w) Hpid Hin) as Hfind.
  unfold updateProduct, Product_findByIdAndUpdate.
  rewrite (privileged_guard ctx Hadm), Hcast.
  unfold bind, gets, modify, ret. rewrite Hfind.
  do 2 eexists. split; [reflexivity |]. cbn [Products Users with_Products].
  split; [reflexivity |].
  do 6 (split; [apply set_path_updated |]).
  split; [| split; [| split]].
  - apply findById_replace_first; [apply apply_update_id | exact Hfind].
  - apply map_id_replace_first. apply apply_update_id.
  - intros p Hp Hne. apply others_replace_first; assumption.
  - reflexivity.
Qed.

Lemma updated_product_is_stored_witness :
  exists updated w',
    updateProduct (ext := Sample.externals) reprice_lamp Catalog.admin_identity
      Catalog.world
    = (Ok updated, w')
    /\ Product._id updated = 2%N
    /\ field_updated None (Some "Lamp") (Product.name updated)
    /\ field_updated (Some (Some "Table lamp")) None
         (Product.description updated)
    /\ field_updated (Some (Some 8%Q)) (Some 7%Q) (Product.price updated)
    /\ field_updated None (Some "Home") (Product.category updated)
    /\ field_updated None None (Product.brand updated)
    /\ field_updated None None (Product.rating updated)
    /\ Store.findById 2%N (Products w') = Some updated
    /\ map Product._id (Products w') = map Product._id (Products Catalog.world)
    /\ (forall p, In p (Products Catalog.world) -> Product._id p <> 2%N ->
                  In p (Products w'))
    /\ Users w' = Users Catalog.world.
Proof.
  assert (Hadm : privileged Catalog.admin_identity).
  { eexists. split; reflexivity. }
  refine (updated_product_is_stored (ext := Sample.externals) reprice_lamp
            Catalog.admin_identity Catalog.world Catalog.lamp Hadm
            well_formed_catalog _ _).
  - right. left. reflexivity.
  - reflexivity.
Defined.

Lemma apply_update_only_id (pid : string) (p : Product.t) :
  apply_update (only_id pid) p = p.
Proof. destruct p. reflexivity. Qed.

Lemma replace_first_same (test : Product.t -> bool)
  (f : Product.t -> Product.t) (coll : list Product.t) :
  (forall p, f p = p) -> Store.replace_first test f coll = coll.
Proof.
  intros Hf. induction coll as [| p coll IH]; [reflexivity |]. cbn.
  destruct (test p); [rewrite Hf | rewrite IH]; reflexivity.
Qed.

(** X9: updateProduct with the id alone is a read: for an admin and a
    stored product (its id given in a form that casts) it returns the
    product as stored and leaves the world exactly as it was. *)
Theorem update_without_fields {ext : Externals} (pid : string) (ctx : Context)
  (w : World) (q : Product.t) :
  privileged ctx ->
  well_formed w ->
  In q (Products w) ->
  cast_ObjectId pid = Some (Product._id q) ->
  updateProduct (only_id pid) ctx w = (Ok q, w).
Proof.
  intros Hadm [_ [Hpid _]] Hin Hcast.
  pose proof (findById_unique q (Products w) Hpid Hin) as Hfind.
  unfold updateProduct, Product_findByIdAndUpdate.
  rewrite (privileged_guard ctx Hadm). cbn [UpdateProductArgs.id only_id].
  rewrite Hcast. unfold bind, gets, modify, ret.
  rewrite Hfind. cbn [fst snd]. rewrite apply_update_only_id.
  unfold with_Products.
  rewrite (replace_first_same _ _ _ (apply_update_only_id pid)).
  destruct w. reflexivity.
Qed.

Lemma update_without_fields_witness :
  updateProduct (ext := Sample.externals) (only_id "000000000000000000000003")
    Catalog.admin_identity Catalog.world
  = (Ok Catalog.desk, Catalog.world).
Proof.
  assert (Hadm : privileged Catalog.admin_identity).
  { eexists. split; reflexivity. }
  refine (update_without_fields (ext := Sample.externals)
            "000000000000000000000003" Catalog.admin_identity Catalog.world
            Catalog.desk Hadm well_formed_catalog _ _).
  - right. right. left. reflexivity.
  - reflexivity.
Defined.

(** X10: deleteProduct by an admin on a stored product (its id given in a
    form that casts) removes that product and nothing else: afterwards no
    product has the id, the products stored are exactly the former ones
    with another id, one fewer in number, the users are untouched, and a
    second deleteProduct or an updateProduct on the same id fails with
    "Product not found". *)
Theorem deleted_product_is_gone {ext : Externals} (pid : string) (ctx : Context)
  (w : World) (q : Product.t) :
  privileged ctx ->
  well_formed w ->
  In q (Products w) ->
  cast_ObjectId pid = Some (Product._id q) ->
  exists w',
    deleteProduct pid ctx w = (Ok "Product deleted successfully", w')
    /\ ~ product_exists (Product._id q) w'
    /\ (forall p, In p (Products w')
                  <-> In p (Products w) /\ Product._id p <> Product._id q)
    /\ S (List.length (Products w')) = List.length (Products w)
    /\ Users w' = Users w
    /\ deleteProduct pid ctx w' = (Throw ProductNotFound, w')
    /\ (forall args, UpdateProductArgs.id args = pid ->
          updateProduct args ctx w' = (Throw ProductNotFound, w')).
Proof.
  intros Hadm [_ [Hpid _]] Hin Hcast.
  pose proof (findById_unique q (Products w) Hpid Hin) as Hfind.
  pose proof (privileged_guard ctx Hadm) as Hguard.
  unfold deleteProduct at 1. unfold Product_findByIdAndDelete at 1.
  rewrite Hguard, Hcast. unfold bind, gets, modify, ret.
  rewrite Hfind. cbn [fst snd].
  set (w' := with_Products
               (Store.remove_first (Store.has_id (Product._id q)) (Products w))
               w).
  exists w'.
  assert (Hgone : ~ product_exists (Product._id q) w').
  { intros [p [Hp Hp_id]]. cbn [Products w' with_Products] in Hp.
    apply (In_remove_first_iff _ _ p Hpid) in Hp. tauto. }
  pose proof (findById_None _ w' Hgone) as Hnone.
  split; [reflexivity |]. split; [exact Hgone |].
  split; [intros p; exact (In_remove_first_iff _ _ p Hpid) |].
  split; [exact (length_remove_first _ _ q Hfind) |].
  split; [reflexivity |]. split.
  - unfold deleteProduct, Product_findByIdAndDelete.
    rewrite Hguard, Hcast. unfold bind, gets. rewrite Hnone. reflexivity.
  - intros args Harg.
    unfold updateProduct, Product_findByIdAndUpdate.
    rewrite Hguard, Harg, Hcast. unfold bind, gets. rewrite Hnone.
    reflexivity.
Qed.

Lemma deleted_product_is_gone_witness :
  exists w',
    deleteProduct (ext := Sample.externals) "000000000000000000000004"
      Catalog.admin_identity Catalog.world
    = (Ok "Product deleted successfully", w')
    /\ ~ product_exists 4%N w'
    /\ (forall p, In p (Products w')
                  <-> In p (Products Catalog.world) /\ Product._id p <> 4%N)
    /\ S (List.length (Products w')) = List.length (Products Catalog.world)
    /\ Users w' = Users Catalog.world
    /\ deleteProduct (ext := Sample.externals) "000000000000000000000004"
         Catalog.admin_identity w'
       = (Throw ProductNotFound, w')
    /\ (forall args, UpdateProductArgs.id args = "000000000000000000000004" ->
          updateProduct (ext := Sample.externals) args Catalog.admin_identity w'
          = (Throw ProductNotFound, w')).
Proof.
  assert (Hadm : privileged Catalog.admin_identity).
  { eexists. split; reflexivity. }
  refine (deleted_product_is_gone (ext := Sample.externals)
            "000000000000000000000004" Catalog.admin_identity Catalog.world
            Catalog.mug Hadm well_formed_catalog _ _).
  - do 3 right. left. reflexivity.
  - reflexivity.
Defined.

(** ** Where an identity comes from *)

(** X11: the context holds an identity only for a verified token: whenever
    the user of the context is not [null], the header's second word is a
    non-empty token that decodes to exactly this identity under
    JWT_SECRET and has not reached its expiry; nothing was written to the
    console. *)
Theorem identity_only_from_valid_token {ext : Externals} (req : Request)
  (now : Z) (p : Payload) :
  user (fst (context req now)) = Some p ->
  exists tok,
    presented_token req = Some tok
    /\ tok <> ""
    /\ jws_decode tok JWT_SECRET = Decoded p
    /\ (now / 1000 < exp p)%Z
    /\ snd (context req now) = [].
Proof.
  unfold context, presented_token.
  destruct (JS.index _ 1) as [tok |]; cbn [JS.truthy_string]; [| discriminate].
  destruct (String.eqb_spec tok "") as [-> | Hne]; cbn [negb]; [discriminate |].
  unfold jwt_verify.
  destruct (jws_decode tok JWT_SECRET) as [q | |] eqn:Hdec; cbn;
    try discriminate.
  destruct (Z.leb_spec (exp q) (now / 1000)) as [Hle | Hlt]; cbn;
    [discriminate |].
  intros [= ->]. exists tok.
  split; [reflexivity |]. split; [exact Hne |]. split; [exact Hdec |].
  split; [exact Hlt | reflexivity].
Qed.

Lemma identity_only_from_valid_token_witness :
  exists tok,
    presented_token {| authorization := Some "Bearer p111.fp.p1010110.s3cret" |}
    = Some tok
    /\ tok <> ""
    /\ jws_decode (Externals := Sample.externals) tok "s3cret"
       = Decoded {| id := 15%N; isAdmin := false; iat := 1%Z; exp := 181%Z |}
    /\ (5000 / 1000 < 181)%Z
    /\ snd (context (ext := Sample.externals)
              {| authorization := Some "Bearer p111.fp.p1010110.s3cret" |}
              5000%Z) = [].
Proof.
  exact (identity_only_from_valid_token (ext := Sample.externals)
           {| authorization := Some "Bearer p111.fp.p1010110.s3cret" |} 5000%Z
           {| id := 15%N; isAdmin := false; iat := 1%Z; exp := 181%Z |}
           eq_refl).
Defined.

Lemma User_findById_unique (x : User.t) (us : list User.t) :
  NoDup (map User._id us) ->
  In x us ->
  User.findById (User._id x) us = Some x.
Proof.
  unfold User.findById.
  induction us as [| y us IH]; cbn; [tauto |].
  intros Hnd Hin. inversion Hnd as [| ? ? Hnotin Hrest]; subst.
  destruct (N.eqb_spec (User._id y) (User._id x)) as [Heq | Hne].
  - destruct Hin as [-> | Hin]; [reflexivity |].
    exfalso. apply Hnotin. rewrite Heq. apply in_map. exact Hin.
  - destruct Hin as [-> | Hin]; [contradiction |]. exact (IH Hrest Hin).
Qed.

Lemma User_findById_None (uid : ObjectId) (us : list User.t) :
  (forall x, In x us -> User._id x <> uid) ->
  User.findById uid us = None.
Proof.
  intros Hnone. unfold User.findById.
  destruct (find _ us) as [x |] eqn:Hfind; [| reflexivity].
  apply find_some in Hfind. destruct Hfind as [Hin Heq].
  apply N.eqb_eq in Heq. exfalso. exact (Hnone x Hin Heq).
Qed.

(** X12: [me] answers from the store by the id of the identity and never
    changes the world: it returns the stored user with that id, and when no
    user has it (an identity that outlived or never had an account) it
    returns [null] as a success, not an error. *)
Theorem me_looks_up_identity (ctx : Context) (p : Payload) (w : World) :
  user ctx = Some p ->
  well_formed w ->
  (forall x, In x (Users w) -> User._id x = id p ->
             me ctx w = (Ok (Some x), w))
  /\ ((forall x, In x (Users w) -> User._id x <> id p) ->
      me ctx w = (Ok None, w)).
Proof.
  intros Hp [_ [_ [Huid _]]]. unfold me, gets. rewrite Hp. split.
  - intros x Hin Hid. rewrite <- Hid.
    rewrite (User_findById_unique x (Users w) Huid Hin). reflexivity.
  - intros Hnone. rewrite (User_findById_None _ _ Hnone). reflexivity.
Qed.

Lemma me_looks_up_identity_witness :
  me Catalog.alice_identity Catalog.world = (Ok (Some Catalog.alice), Catalog.world)
  /\ me Catalog.admin_identity Catalog.world = (Ok None, Catalog.world).
Proof.
  split.
  - refine (proj1 (me_looks_up_identity Catalog.alice_identity _ Catalog.world
                     eq_refl well_formed_catalog) Catalog.alice _ _).
    + left. reflexivity.
    + reflexivity.
  - refine (proj2 (me_looks_up_identity Catalog.admin_identity _ Catalog.world
                     eq_refl well_formed_catalog) _).
    intros x [<- | []]. discriminate.
Defined.

(** ** Tokens issued by login *)

Lemma token_of_login {ext : Externals} (u p : string) (now later : Z)
  (w : World) (tok : string) :
  jws_correct ->
  fst (login u p now w) = Ok tok ->
  exists x,
    User.findOne u (Users w) = Some x
    /\ ((later / 1000 < now / 1000 + 86400)%Z ->
        jwt_verify tok JWT_SECRET later
        = Ok {| id := User._id x; isAdmin := User.isAdmin x;
                iat := (now / 1000)%Z; exp := (now / 1000 + 86400)%Z |}).
Proof.
  intros Hjws. unfold login, bind, gets, throw, ret.
  destruct (User.findOne u (Users w)) as [x |]; cbn; [| discriminate].
  destruct (bcrypt_compare p (User.password x)); cbn; [| discriminate].
  intros [= <-]. exists x. split; [reflexivity |].
  unfold jwt_verify, jwt_sign, one_day. rewrite Hjws. cbn [exp].
  intros Hlt.
  destruct (Z.leb_spec (now / 1000 + 86400) (later / 1000)); [lia |].
  reflexivity.
Qed.

Lemma NoDup_map_inj {A B} (f : A -> B) (l : list A) :
  NoDup (map f l) ->
  forall x y, In x l -> In y l -> f x = f y -> x = y.
Proof.
  induction l as [| z l IH]; cbn; [tauto |].
  intros Hnd x y Hx Hy Heq. inversion Hnd as [| ? ? Hnotin Hrest]; subst.
  destruct Hx as [-> | Hx], Hy as [-> | Hy].
  - reflexivity.
  - exfalso. apply Hnotin. rewrite Heq. apply in_map. exact Hy.
  - exfalso. apply Hnotin. rewrite <- Heq. apply in_map. exact Hx.
  - exact (IH Hrest x y Hx Hy Heq).
Qed.

(** X13: a token returned by login carries the id and the isAdmin flag of
    the user found at that moment and lives exactly one day (86400 s) on
    the clock in whole seconds: jwt.verify returns that identity at any
    time before issue + 86400 s and throws TokenExpiredError from then
    on.  The JWS coding is assumed correct. *)
Theorem token_lifetime {ext : Externals} (u p : string) (now later : Z)
  (w : World) (tok : string) :
  jws_correct ->
  fst (login u p now w) = Ok tok ->
  exists x,
    User.findOne u (Users w) = Some x
    /\ ((later / 1000 < now / 1000 + 86400)%Z ->
        jwt_verify tok JWT_SECRET later
        = Ok {| id := User._id x; isAdmin := User.isAdmin x;
                iat := (now / 1000)%Z; exp := (now / 1000 + 86400)%Z |})
    /\ ((now / 1000 + 86400 <= later / 1000)%Z ->
        jwt_verify tok JWT_SECRET later = Throw TokenExpiredError).
Proof.
  intros Hjws. unfold login, bind, gets, throw, ret.
  destruct (User.findOne u (Users w)) as [x |]; cbn; [| discriminate].
  destruct (bcrypt_compare p (User.password x)); cbn; [| discriminate].
  intros [= <-]. exists x. split; [reflexivity |].
  unfold jwt_verify, jwt_sign, one_day. rewrite Hjws. cbn [exp]. split.
  - intros Hlt.
    destruct (Z.leb_spec (now / 1000 + 86400) (later / 1000)); [lia |].
    reflexivity.
  - intros Hle. apply Z.leb_le in Hle. rewrite Hle. reflexivity.
Qed.

Lemma token_lifetime_witness :
  exists x,
    User.findOne "alice" (Users Catalog.world) = Some x
    /\ ((86404999 / 1000 < 5000 / 1000 + 86400)%Z ->
        jwt_verify (ext := Sample.externals) "p11.fp10.p1010000110001010.s3cret"
          "s3cret" 86404999%Z
        = Ok {| id := User._id x; isAdmin := User.isAdmin x;
                iat := (5000 / 1000)%Z; exp := (5000 / 1000 + 86400)%Z |})
    /\ ((5000 / 1000 + 86400 <= 86404999 / 1000)%Z ->
        jwt_verify (ext := Sample.externals) "p11.fp10.p1010000110001010.s3cret"
          "s3cret" 86404999%Z
        = Throw TokenExpiredError).
Proof.
  exact (token_lifetime (ext := Sample.externals) "alice" "pw1" 5000%Z
           86404999%Z Catalog.world "p11.fp10.p1010000110001010.s3cret"
           Sample_jws_correct eq_refl).
Defined.

(** ** From registration to a mutation *)

Lemma context_of_valid {ext : Externals} (tok : string) (p : Payload) (now : Z) :
  no_space tok = true ->
  tok <> "" ->
  jwt_verify tok JWT_SECRET now = Ok p ->
  context {| authorization := Some ("Bearer" ++ String " " tok)%string |} now
  = ({| user := Some p |}, []).
Proof.
  intros Hs Hne Hverify.
  pose proof (proj1 (second_word "Bearer" tok eq_refl Hs)) as Htok.
  unfold presented_token in Htok. unfold context. rewrite Htok.
  cbn [JS.truthy_string].
  destruct (String.eqb_spec tok ""); [contradiction |]. cbn [negb].
  rewrite Hverify. reflexivity.
Qed.

(** X14: register asks for no identity, so any caller can create an account
    with the isAdmin flag of its choice: after register(u, p, a) on a free
    username, login(u, p) returns a token which, sent as "Bearer <token>"
    within a day, gives a context with the new user's id and that flag;
    with it [me] returns the new user, addProduct succeeds when a is true,
    and fails with Unauthorized when a is false or absent.  (bcrypt and the
    JWS coding assumed correct; the token holds no space.) *)
Theorem registered_caller_end_to_end {ext : Externals} (u p : string)
  (a : option bool) (w : World) (now later : Z) (tok : string)
  (args : AddProductArgs.t) :
  bcrypt_correct ->
  jws_correct ->
  well_formed w ->
  ~ username_taken u w ->
  fst (login u p now (snd (register u p a w))) = Ok tok ->
  no_space tok = true ->
  tok <> "" ->
  (later / 1000 < now / 1000 + 86400)%Z ->
  exists payload stored,
    fst (context {| authorization := Some ("Bearer" ++ String " " tok)%string |}
           later)
    = {| user := Some payload |}
    /\ id payload = nextOid w
    /\ isAdmin payload = JS.or_bool a false
    /\ In stored (Users (snd (register u p a w)))
    /\ User.username stored = u
    /\ me {| user := Some payload |} (snd (register u p a w))
       = (Ok (Some stored), snd (register u p a w))
    /\ (a = Some true ->
        fst (addProduct args {| user := Some payload |} (snd (register u p a w)))
        = Ok (new_Product (N.succ (nextOid w)) args))
    /\ (a <> Some true ->
        addProduct args {| user := Some payload |} (snd (register u p a w))
        = (Throw Unauthorized, snd (register u p a w))).
Proof.
  intros Hbcrypt Hjws Hw Hfree Hlogin Hs Hne Hlife.
  pose proof (findOne_None u w Hfree) as Hfind.
  rewrite (register_fresh u p a w Hfind) in *. cbn [snd] in *.
  pose proof (well_formed_registered u p a w Hw Hfind) as Hw1.
  set (new := {| User._id := nextOid w; User.username := u;
                 User.password := bcrypt_hash p 10 (entropy w);
                 User.isAdmin := JS.or_bool a false |}).
  assert (Hin : In new (Users (registered u p a w))).
  { unfold registered. cbn [Users]. apply in_or_app. right. left. reflexivity. }
  destruct (token_of_login u p now later (registered u p a w) tok Hjws Hlogin)
    as [x [Hx Hverify]].
  apply findOne_stored in Hx. destruct Hx as [Hxin Hxname].
  assert (Hxnew : x = new).
  { destruct Hw1 as [_ [_ [_ Hnames]]].
    apply (NoDup_map_inj User.username _ Hnames x new Hxin Hin).
    rewrite Hxname. reflexivity. }
  subst x. specialize (Hverify Hlife). cbn [User._id User.isAdmin new] in Hverify.
  eexists. exists new.
  rewrite (context_of_valid tok _ later Hs Hne Hverify). cbn [fst].
  split; [reflexivity |]. split; [reflexivity |]. split; [reflexivity |].
  split; [exact Hin |]. split; [reflexivity |]. split.
  - unfold me, gets. cbn [user id].
    destruct Hw1 as [_ [_ [Huid _]]].
    pose proof (User_findById_unique new _ Huid Hin) as Hfound.
    cbn [User._id new] in Hfound. rewrite Hfound. reflexivity.
  - unfold addProduct. cbn [user]. rewrite not_admin_flag. cbn [isAdmin].
    split.
    + intros ->. reflexivity.
    + intros Hna. destruct a as [[|] |]; [contradiction | reflexivity ..].
Qed.

Lemma registered_caller_end_to_end_witness :
  exists payload,
    fst (context (ext := Sample.externals)
           {| authorization := Some "Bearer p000.tp10.p1010000110001010.s3cret" |}
           6000%Z)
    = {| user := Some payload |}
    /\ isAdmin payload = true
    /\ fst (addProduct widget {| user := Some payload |}
              (snd (register (ext := Sample.externals) "root" "pw" (Some true)
                      Catalog.world)))
       = Ok (new_Product 9%N widget).
Proof.
  assert (Hfree : ~ username_taken "root" Catalog.world).
  { intros [x [[<- | []] Hname]]. discriminate Hname. }
  assert (Hne : "p000.tp10.p1010000110001010.s3cret" <> "") by discriminate.
  destruct (registered_caller_end_to_end (ext := Sample.externals)
              "root" "pw" (Some true) Catalog.world 5000%Z 6000%Z
              "p000.tp10.p1010000110001010.s3cret" widget
              Sample_bcrypt_correct Sample_jws_correct well_formed_catalog
              Hfree eq_refl eq_refl Hne eq_refl)
    as [payload [stored (Hctx & _ & Hadm & _ & _ & _ & Hadd & _)]].
  exists payload. split; [exact Hctx |]. split; [exact Hadm |].
  exact (Hadd eq_refl).
Defined.

(** ** Category, brand and pages *)

Lemma matches_labels (args : ProductsArgs.t) (p : Product.t) :
  in_force (ProductsArgs.minPrice args) = None ->
  in_force (ProductsArgs.maxPrice args) = None ->
  (Store.matches (products_filter args) p = true <-> labels_match args p).
Proof.
  intros Hlo Hhi. unfold Store.matches, labels_match.
  rewrite filter_category, filter_brand, filter_price, Hlo, Hhi.
  rewrite !andb_true_iff, !eq_cond_label. cbn. tauto.
Qed.

Lemma matches_labels_always (args : ProductsArgs.t) (p : Product.t) :
  Store.matches (products_filter args) p = true -> labels_match args p.
Proof.
  unfold Store.matches, labels_match.
  rewrite filter_category, filter_brand.
  rewrite !andb_true_iff, !eq_cond_label. tauto.
Qed.

(** X15: category and brand are exact, case-sensitive equalities that
    combine by conjunction: every product [products] returns is a stored
    product whose category and brand equal the non-empty ones given; and
    a query without price bound in force, skip and limit returns exactly
    the stored products that do.  The store's sort is assumed to permute. *)
Theorem products_by_labels {ext : Externals} (args : ProductsArgs.t) (w : World) :
  sort_permutes ->
  (forall found p,
     fst (products args w) = Ok found -> In p found ->
     In p (Products w) /\ labels_match args p)
  /\ (in_force (ProductsArgs.minPrice args) = None ->
      in_force (ProductsArgs.maxPrice args) = None ->
      unpaginated args ->
      exists found,
        products args w = (Ok found, w)
        /\ forall p, In p found <-> In p (Products w) /\ labels_match args p).
Proof.
  intros Hsort. unfold products. cbn [fst]. split.
  - intros found p Hexec Hin.
    destruct (exec_sound _ _ _ p Hsort Hexec Hin) as [Hstored Hmatch].
    rewrite query_filter in Hmatch.
    split; [exact Hstored | exact (matches_labels_always args p Hmatch)].
  - intros Hlo Hhi [Hskip Hlimit].
    destruct (exec_complete (products_query args) (Products w) Hsort)
      as [found [Hexec Hiff]].
    + rewrite query_skip, Hskip. reflexivity.
    + rewrite query_limit, Hlimit. reflexivity.
    + exists found. rewrite Hexec. split; [reflexivity |].
      intros p. rewrite (Hiff p), query_filter.
      rewrite (matches_labels args p Hlo Hhi). tauto.
Qed.

Lemma products_by_labels_witness :
  exists found,
    products (ext := Sample.externals)
      (ProductsArgs.with_brand (Some "Acme")
         (ProductsArgs.with_category (Some "Home") Catalog.by_price))
      Catalog.world
    = (Ok found, Catalog.world)
    /\ forall p, In p found
                 <-> In p (Products Catalog.world)
                     /\ labels_match
                          (ProductsArgs.with_brand (Some "Acme")
                             (ProductsArgs.with_category (Some "Home")
                                Catalog.by_price)) p.
Proof.
  refine (proj2 (products_by_labels (ext := Sample.externals) _ Catalog.world
                   Sample_sort_permutes) _ _ _).
  - reflexivity.
  - reflexivity.
  - split; reflexivity.
Defined.

Lemma firstn_plus {A} (a b : nat) (l : list A) :
  firstn (a + b) l = firstn a l ++ firstn b (skipn a l).
Proof.
  revert l. induction a as [| a IH]; intros l; [reflexivity |].
  destruct l as [| x l]; cbn.
  - rewrite firstn_nil. reflexivity.
  - rewrite IH. reflexivity.
Qed.

Lemma page_formula {ext : Externals} (args : ProductsArgs.t) (w : World)
  (all : list Product.t) (n m : Z) :
  products (ProductsArgs.with_skip None (ProductsArgs.with_limit None args)) w
  = (Ok all, w) ->
  (0 <= n)%Z -> (0 < m)%Z ->
  products (ProductsArgs.with_skip (Some n)
              (ProductsArgs.with_limit (Some m) args)) w
  = (Ok (firstn (Z.to_nat m) (skipn (Z.to_nat n) all)), w).
Proof.
  intros Hall Hn Hm. revert Hall. unfold products, Store.exec.
  rewrite !query_skip, !query_limit, !query_sort, !query_filter.
  cbn [ProductsArgs.skip ProductsArgs.limit ProductsArgs.sortBy
       ProductsArgs.with_skip ProductsArgs.with_limit
       JS.truthy_int Store.apply_limit].
  change (products_filter
            (ProductsArgs.with_skip (Some n)
               (ProductsArgs.with_limit (Some m) args)))
    with (products_filter args).
  change (products_filter
            (ProductsArgs.with_skip None (ProductsArgs.with_limit None args)))
    with (products_filter args).
  intros [= ->].
  assert (Hm0 : (m =? 0)%Z = false) by (apply Z.eqb_neq; lia).
  rewrite Hm0. cbn [negb Store.apply_limit]. rewrite Hm0.
  rewrite Zabs2Nat.abs_nat_nonneg by lia.
  destruct (Z.eqb_spec n 0) as [-> | Hn0]; cbn [negb]; [reflexivity |].
  destruct (Z.ltb_spec n 0); [lia | reflexivity].
Qed.

(** X16: pages are windows on one list: with skip = n (not negative) and
    limit = m (positive), [products] returns the m products that follow the
    first n of what the same query returns without skip and limit; so a
    page never holds more than m products, and the page of m + m' products
    is the page of m followed by the page of m' that starts m further. *)
Theorem products_pages {ext : Externals} (args : ProductsArgs.t) (w : World)
  (all : list Product.t) (n m m' : Z) :
  products (ProductsArgs.with_skip None (ProductsArgs.with_limit None args)) w
  = (Ok all, w) ->
  (0 <= n)%Z -> (0 < m)%Z -> (0 < m')%Z ->
  exists page next,
    products (ProductsArgs.with_skip (Some n)
                (ProductsArgs.with_limit (Some m) args)) w
    = (Ok page, w)
    /\ page = firstn (Z.to_nat m) (skipn (Z.to_nat n) all)
    /\ (List.length page <= Z.to_nat m)%nat
    /\ products (ProductsArgs.with_skip (Some (n + m)%Z)
                   (ProductsArgs.with_limit (Some m') args)) w
       = (Ok next, w)
    /\ products (ProductsArgs.with_skip (Some n)
                   (ProductsArgs.with_limit (Some (m + m')%Z) args)) w
       = (Ok (page ++ next), w).
Proof.
  intros Hall Hn Hm Hm'.
  exists (firstn (Z.to_nat m) (skipn (Z.to_nat n) all)).
  exists (firstn (Z.to_nat m') (skipn (Z.to_nat (n + m)) all)).
  split; [apply page_formula; assumption |].
  split; [reflexivity |].
  split; [apply firstn_le_length |].
  split; [apply page_formula; [assumption | lia | assumption] |].
  rewrite (page_formula args w all n (m + m') Hall Hn) by lia.
  rewrite !Z2Nat.inj_add by lia.
  rewrite firstn_plus, skipn_skipn, (Nat.add_comm (Z.to_nat m)).
  reflexivity.
Qed.

Lemma products_pages_witness :
  exists page next,
    products (ext := Sample.externals)
      (ProductsArgs.with_skip (Some 1%Z)
         (ProductsArgs.with_limit (Some 2%Z) Catalog.by_price)) Catalog.world
    = (Ok page, Catalog.world)
    /\ page = [Catalog.mug; Catalog.pen]
    /\ (List.length page <= 2)%nat
    /\ products (ext := Sample.externals)
         (ProductsArgs.with_skip (Some 3%Z)
            (ProductsArgs.with_limit (Some 2%Z) Catalog.by_price)) Catalog.world
       = (Ok next, Catalog.world)
    /\ products (ext := Sample.externals)
         (ProductsArgs.with_skip (Some 1%Z)
            (ProductsArgs.with_limit (Some 4%Z) Catalog.by_price)) Catalog.world
       = (Ok (page ++ next), Catalog.world).
Proof.
  refine (products_pages (ext := Sample.externals) Catalog.by_price
            Catalog.world
            [Catalog.cup; Catalog.mug; Catalog.pen; Catalog.lamp; Catalog.desk;
             Catalog.rug]
            1%Z 2%Z 2%Z _ _ _ _); reflexivity || discriminate.
Defined.

(** ** Compositions *)

(** X17: a username, once registered, stays taken: after a successful
    register(u, ...), and whatever requests are served afterwards, every
    further register with the same username fails with "Username already
    exists" and changes nothing. *)
Theorem username_stays_taken {ext : Externals} (u p p' : string)
  (a a' : option bool) (w : World) (marker : string)
  (between : list (Request * Z * Operation)) :
  fst (register u p a w) = Ok marker ->
  register u p' a' (serve_all between (snd (register u p a w)))
  = (Throw Conflict, serve_all between (snd (register u p a w))).
Proof.
  intros Hok.
  destruct (User.findOne u (Users w)) as [x |] eqn:Hfind.
  { rewrite (register_taken u p a w x Hfind) in Hok. discriminate Hok. }
  rewrite (register_fresh u p a w Hfind). cbn [snd].
  eapply register_taken. apply serve_all_keeps_user.
  unfold registered, User.findOne in *. cbn [Users].
  rewrite (find_app_None _ _ _ Hfind). cbn.
  rewrite String.eqb_refl. reflexivity.
Qed.

Lemma username_stays_taken_witness :
  register (ext := Sample.externals) "root" "other" None
    (serve_all (ext := Sample.externals)
       [({| authorization := None |}, 3000%Z, OpRegister "carol" "x" None)]
       (snd (register (ext := Sample.externals) "root" "pw" (Some true)
               Catalog.world)))
  = (Throw Conflict,
     serve_all (ext := Sample.externals)
       [({| authorization := None |}, 3000%Z, OpRegister "carol" "x" None)]
       (snd (register (ext := Sample.externals) "root" "pw" (Some true)
               Catalog.world))).
Proof.
  exact (username_stays_taken (ext := Sample.externals) "root" "pw" "other"
           (Some true) None Catalog.world "User registered" _ eq_refl).
Defined.

(** X18: addProduct does not look for an existing product: an admin adding
    the same arguments twice stores two products with different [_id]s and
    the same name, description, price, category, brand and rating, both
    present afterwards, after the former products. *)
Theorem addProduct_twice (args : AddProductArgs.t) (ctx : Context) (w : World) :
  privileged ctx ->
  exists first second w1 w2,
    addProduct args ctx w = (Ok first, w1)
    /\ addProduct args ctx w1 = (Ok second, w2)
    /\ Product._id first <> Product._id second
    /\ Product.name first = Product.name second
    /\ Product.description first = Product.description second
    /\ Product.price first = Product.price second
    /\ Product.category first = Product.category second
    /\ Product.brand first = Product.brand second
    /\ Product.rating first = Product.rating second
    /\ Product.name first = Some (AddProductArgs.name args)
    /\ Product.price first = Some (AddProductArgs.price args)
    /\ Products w2 = Products w ++ [first; second].
Proof.
  intros Hadm. unfold addProduct. rewrite (privileged_guard ctx Hadm).
  do 4 eexists. split; [reflexivity |]. split; [reflexivity |].
  cbn. split; [lia |]. do 8 (split; [reflexivity |]).
  rewrite <- app_assoc. reflexivity.
Qed.

Lemma addProduct_twice_witness :
  exists first second w1 w2,
    addProduct widget Catalog.admin_identity Catalog.world = (Ok first, w1)
    /\ addProduct widget Catalog.admin_identity w1 = (Ok second, w2)
    /\ Product._id first <> Product._id second
    /\ Product.name first = Product.name second
    /\ Product.description first = Product.description second
    /\ Product.price first = Product.price second
    /\ Product.category first = Product.category second
    /\ Product.brand first = Product.brand second
    /\ Product.rating first = Product.rating second
    /\ Product.name first = Some "Widget"
    /\ Product.price first = Some (999 # 100)%Q
    /\ Products w2 = Products Catalog.world ++ [first; second].
Proof.
  assert (Hadm : privileged Catalog.admin_identity).
  { eexists. split; reflexivity. }
  exact (addProduct_twice widget Catalog.admin_identity Catalog.world Hadm).
Defined.
